(** * jsonToTable: the JSON-to-table projection of the JsonToTable component

    A shallow embedding of
    [force-app/main/default/lwc/jsonToTable/jsonToTable.js].

    The component receives a JSON text, decodes it (tolerating one extra
    level of string encoding), and reshapes the decoded array into the rows
    and the column descriptors of a data table.  Failures are caught and
    turned into an error message.

    Layout of the development:
    - JavaScript strings, numbers and values;
    - [JSON.parse], as a tokenizer followed by a stack automaton;
    - the abstract operations the component relies on ([ToBoolean],
      [ToString], property access and assignment, object spread);
    - the component state and its methods;
    - the properties. *)

From Stdlib Require Import List String Ascii Bool Arith NArith ZArith Lia.
From Stdlib Require Import DecimalString.
Import ListNotations.

Set Implicit Arguments.
Set Warnings "-register-all".

(** ** Strings *)

(** A JavaScript string is a sequence of UTF-16 code units. *)
Definition jsstring := list N.

Definition js (s : string) : jsstring :=
  map N_of_ascii (list_ascii_of_string s).

Definition str_eq_dec : forall a b : jsstring, {a = b} + {a <> b} :=
  list_eq_dec N.eq_dec.

(** Code units that the JSON grammar names. *)
Module Ch.
Definition tab : N := 9.
Definition lf : N := 10.
Definition cr : N := 13.
Definition space : N := 32.
Definition quote : N := 34.
Definition plus : N := 43.
Definition comma : N := 44.
Definition minus : N := 45.
Definition dot : N := 46.
Definition slash : N := 47.
Definition zero : N := 48.
Definition nine : N := 57.
Definition colon : N := 58.
Definition lbracket : N := 91.
Definition backslash : N := 92.
Definition rbracket : N := 93.
Definition lbrace : N := 123.
Definition rbrace : N := 125.
End Ch.

(** [quoted s] is [s] between two double quotes, to write JSON texts. *)
Definition quoted (s : string) : jsstring :=
  Ch.quote :: js s ++ [Ch.quote].

(** ** Numbers *)

(** A JSON number literal denotes the decimal [(-1)^negative * coeff *
    10^exp10]; the run time rounds it to the nearest IEEE double.  The
    component never computes with such numbers: it tests them for
    truthiness and interpolates them into a string. *)
Record Number := mkNumber {
  negative : bool;
  coeff : N;
  exp10 : Z
}.

Definition Number_of_nat (n : nat) : Number :=
  {| negative := false; coeff := N.of_nat n; exp10 := 0 |}.

(** The decimal rounds to (plus or minus) zero exactly when it is at most
    half the smallest subnormal double, [2^-1075] (ties go to even). *)
Definition Number_is_zero (n : Number) : bool :=
  if (0 <=? exp10 n)%Z then (coeff n =? 0)%N
  else (Z.of_N (coeff n) * 2 ^ 1075 <=? 10 ^ (- exp10 n))%Z.

(** The value of the literal when it is an integer that a double holds
    exactly (magnitude at most [2^53]). *)
Definition Number_safe_integer (n : Number) : option N :=
  let c := Z.of_N (coeff n) in
  let v :=
    if (0 <=? exp10 n)%Z then Some (c * 10 ^ exp10 n)%Z
    else if (c mod 10 ^ (- exp10 n) =? 0)%Z then Some (c / 10 ^ (- exp10 n))%Z
    else None in
  match v with
  | Some z => if (z <=? 2 ^ 53)%Z then Some (Z.to_N z) else None
  | None => None
  end.

Definition decimal (n : N) : jsstring :=
  js (NilZero.string_of_uint (N.to_uint n)).

(** ** Values *)

Inductive Value : Type :=
| VUndefined
| VNull
| VBool (b : bool)
| VNumber (n : Number)
| VString (s : jsstring)
| VArray (elems : list Value)
| VObject (props : list (jsstring * Value)).

Definition Props := list (jsstring * Value).

(** Own data properties, in creation order.  Assigning to an existing key
    replaces its value in place, assigning to a new key appends it. *)
Fixpoint set_prop (k : jsstring) (v : Value) (o : Props) : Props :=
  match o with
  | [] => [(k, v)]
  | (k', v') :: o' =>
      if str_eq_dec k k' then (k, v) :: o' else (k', v') :: set_prop k v o'
  end.

Fixpoint get_prop (k : jsstring) (o : Props) : option Value :=
  match o with
  | [] => None
  | (k', v') :: o' => if str_eq_dec k k' then Some v' else get_prop k o'
  end.

Definition has_prop (k : jsstring) (o : Props) : bool :=
  match get_prop k o with Some _ => true | None => false end.

(** ** Exceptions *)

Inductive ErrorKind := SyntaxError | TypeError | PlainError.

Record Thrown := mkThrown {
  kind : ErrorKind;
  message : jsstring
}.

Definition Result (A : Type) := (Thrown + A)%type.

Definition ok {A} (a : A) : Result A := inr a.
Definition throw {A} (k : ErrorKind) (msg : jsstring) : Result A :=
  inl (mkThrown k msg).

Definition rbind {A B} (r : Result A) (f : A -> Result B) : Result B :=
  match r with
  | inl e => inl e
  | inr a => f a
  end.

Definition kind_of {A} (r : Result A) : option ErrorKind :=
  match r with
  | inl e => Some (kind e)
  | inr _ => None
  end.

Declare Scope result_scope.
Delimit Scope result_scope with result.
Notation "x <- r ;; k" := (rbind r (fun x => k))
  (at level 61, r at next level, right associativity) : result_scope.

(** ** JSON.parse *)

(** The decoder of the run time, as the JSON grammar defines it: a
    tokenizer that reads one code unit at a time, then a stack automaton
    over the tokens.  Both recurse on their input, so decoding is total.
    Every failure is a [SyntaxError]; the wording of its message is the
    engine's own and no property below depends on it. *)
Module JSON.

Inductive token :=
| TLBracket | TRBracket | TLBrace | TRBrace | TComma | TColon
| TString (s : jsstring)
| TScalar (v : Value).

(** Where the tokenizer stands inside a number literal. *)
Inductive numphase :=
| NSign     (* after the minus sign: a digit must follow *)
| NZero     (* after a leading zero: no further integer digit *)
| NInt      (* inside the integer digits *)
| NDot      (* after the point: a digit must follow *)
| NFrac     (* inside the fraction digits *)
| NE        (* after e or E: a sign or a digit must follow *)
| NESign    (* after the exponent sign: a digit must follow *)
| NExp.     (* inside the exponent digits *)

Record numacc := mkNumacc {
  n_neg : bool;      (* the literal starts with a minus sign *)
  n_coeff : N;       (* integer and fraction digits read so far *)
  n_frac : Z;        (* how many of them are fraction digits *)
  n_eneg : bool;     (* the exponent has a minus sign *)
  n_exp : N          (* exponent digits read so far *)
}.

Inductive lexmode :=
| LStart
| LStr (acc : jsstring)                       (* in a string; [acc] reversed *)
| LEsc (acc : jsstring)                       (* after a backslash *)
| LHex (acc : jsstring) (todo : nat) (code : N)  (* in the digits of \u *)
| LWord (rest : jsstring) (v : Value)         (* in true, false or null *)
| LNum (ph : numphase) (a : numacc).

Definition unexpected_token {A} : Result A :=
  throw SyntaxError (js "Unexpected token in JSON").
Definition unexpected_end {A} : Result A :=
  throw SyntaxError (js "Unexpected end of JSON input").

Definition is_ws (c : N) : bool :=
  (c =? Ch.tab)%N || (c =? Ch.lf)%N || (c =? Ch.cr)%N || (c =? Ch.space)%N.

Definition digit (c : N) : option N :=
  if ((Ch.zero <=? c) && (c <=? Ch.nine))%N then Some (c - Ch.zero)%N else None.

Definition hexdigit (c : N) : option N :=
  if ((48 <=? c) && (c <=? 57))%N then Some (c - 48)%N
  else if ((65 <=? c) && (c <=? 70))%N then Some (c - 55)%N
  else if ((97 <=? c) && (c <=? 102))%N then Some (c - 87)%N
  else None.

Definition number_of (a : numacc) : Number :=
  {| negative := n_neg a;
     coeff := n_coeff a;
     exp10 := (if n_eneg a then - Z.of_N (n_exp a) else Z.of_N (n_exp a))
              - n_frac a |}.

Definition push_int (a : numacc) (d : N) : numacc :=
  mkNumacc (n_neg a) (10 * n_coeff a + d) (n_frac a) (n_eneg a) (n_exp a).
Definition push_frac (a : numacc) (d : N) : numacc :=
  mkNumacc (n_neg a) (10 * n_coeff a + d) (n_frac a + 1) (n_eneg a) (n_exp a).
Definition push_exp (a : numacc) (d : N) : numacc :=
  mkNumacc (n_neg a) (n_coeff a) (n_frac a) (n_eneg a) (10 * n_exp a + d).
Definition set_eneg (a : numacc) : numacc :=
  mkNumacc (n_neg a) (n_coeff a) (n_frac a) true (n_exp a).

(** A code unit read where a token may start: the new mode and the
    tokens completed (at most one). *)
Definition start (c : N) : Result (lexmode * list token) :=
  if is_ws c then ok (LStart, [])
  else if (c =? Ch.lbracket)%N then ok (LStart, [TLBracket])
  else if (c =? Ch.rbracket)%N then ok (LStart, [TRBracket])
  else if (c =? Ch.lbrace)%N then ok (LStart, [TLBrace])
  else if (c =? Ch.rbrace)%N then ok (LStart, [TRBrace])
  else if (c =? Ch.comma)%N then ok (LStart, [TComma])
  else if (c =? Ch.colon)%N then ok (LStart, [TColon])
  else if (c =? Ch.quote)%N then ok (LStr [], [])
  else if (c =? Ch.minus)%N then ok (LNum NSign (mkNumacc true 0 0 false 0), [])
  else if (c =? Ch.zero)%N then ok (LNum NZero (mkNumacc false 0 0 false 0), [])
  else if (c =? 116)%N then ok (LWord (js "rue") (VBool true), [])
  else if (c =? 102)%N then ok (LWord (js "alse") (VBool false), [])
  else if (c =? 110)%N then ok (LWord (js "ull") VNull, [])
  else match digit c with
       | Some d => ok (LNum NInt (mkNumacc false d 0 false 0), [])
       | None => unexpected_token
       end.

(** The literal may end in this phase. *)
Definition num_complete (ph : numphase) : bool :=
  match ph with
  | NZero | NInt | NFrac | NExp => true
  | NSign | NDot | NE | NESign => false
  end.

(** A code unit that continues the number literal, if it does. *)
Definition num_step (ph : numphase) (a : numacc) (c : N)
  : option (numphase * numacc) :=
  let is_e := ((c =? 101) || (c =? 69))%N in
  match ph with
  | NSign =>
      match digit c with
      | Some d => Some (if (d =? 0)%N then NZero else NInt, push_int a d)
      | None => None
      end
  | NZero =>
      if (c =? Ch.dot)%N then Some (NDot, a)
      else if is_e then Some (NE, a) else None
  | NInt =>
      match digit c with
      | Some d => Some (NInt, push_int a d)
      | None =>
          if (c =? Ch.dot)%N then Some (NDot, a)
          else if is_e then Some (NE, a) else None
      end
  | NDot =>
      match digit c with
      | Some d => Some (NFrac, push_frac a d)
      | None => None
      end
  | NFrac =>
      match digit c with
      | Some d => Some (NFrac, push_frac a d)
      | None => if is_e then Some (NE, a) else None
      end
  | NE =>
      match digit c with
      | Some d => Some (NExp, push_exp a d)
      | None =>
          if (c =? Ch.plus)%N then Some (NESign, a)
          else if (c =? Ch.minus)%N then Some (NESign, set_eneg a)
          else None
      end
  | NESign | NExp =>
      match digit c with
      | Some d => Some (NExp, push_exp a d)
      | None => None
      end
  end.

(** The character an escape letter stands for. *)
Definition escape (c : N) : option N :=
  if (c =? Ch.quote)%N then Some Ch.quote
  else if (c =? Ch.backslash)%N then Some Ch.backslash
  else if (c =? Ch.slash)%N then Some Ch.slash
  else if (c =? 98)%N then Some 8%N
  else if (c =? 102)%N then Some 12%N
  else if (c =? 110)%N then Some Ch.lf
  else if (c =? 114)%N then Some Ch.cr
  else if (c =? 116)%N then Some Ch.tab
  else None.

Definition lex_step (m : lexmode) (c : N) : Result (lexmode * list token) :=
  match m with
  | LStart => start c
  | LStr acc =>
      if (c =? Ch.quote)%N then ok (LStart, [TString (rev acc)])
      else if (c =? Ch.backslash)%N then ok (LEsc acc, [])
      else if (c <? Ch.space)%N then unexpected_token
      else ok (LStr (c :: acc), [])
  | LEsc acc =>
      if (c =? 117)%N then ok (LHex acc 4 0, [])
      else match escape c with
           | Some c' => ok (LStr (c' :: acc), [])
           | None => unexpected_token
           end
  | LHex acc todo code =>
      match hexdigit c with
      | Some d =>
          let code' := (16 * code + d)%N in
          match todo with
          | S (S todo') => ok (LHex acc (S todo') code', [])
          | _ => ok (LStr (code' :: acc), [])
          end
      | None => unexpected_token
      end
  | LWord rest v =>
      match rest with
      | [x] => if (c =? x)%N then ok (LStart, [TScalar v]) else unexpected_token
      | x :: rest' => if (c =? x)%N then ok (LWord rest' v, []) else unexpected_token
      | [] => unexpected_token
      end
  | LNum ph a =>
      match num_step ph a c with
      | Some (ph', a') => ok (LNum ph' a', [])
      | None =>
          if num_complete ph then
            (r <- start c ;;
             ok (fst r, TScalar (VNumber (number_of a)) :: snd r))%result
          else unexpected_token
      end
  end.

Definition lex_end (m : lexmode) : Result (list token) :=
  match m with
  | LStart => ok []
  | LNum ph a =>
      if num_complete ph then ok [TScalar (VNumber (number_of a))]
      else unexpected_end
  | _ => unexpected_end
  end.

Fixpoint lex (m : lexmode) (text : jsstring) : Result (list token) :=
  match text with
  | [] => lex_end m
  | c :: text' =>
      (r <- lex_step m c ;;
       toks <- lex (fst r) text' ;;
       ok (snd r ++ toks))%result
  end.

(** An array or an object under construction. *)
Inductive frame :=
| InArray (done : list Value)                    (* elements so far, reversed *)
| InObject (done : Props) (key : jsstring).      (* members so far, and the key awaiting its value *)

Inductive pstate :=
| WantValue (fresh : bool) (stack : list frame)
    (* a value must start; [fresh]: an array was just opened and may close *)
| WantKey (fresh : bool) (done : Props) (stack : list frame)
    (* a member key must start; [fresh]: the object was just opened and may close *)
| WantColon (done : Props) (key : jsstring) (stack : list frame)
| HaveValue (v : Value) (stack : list frame).
    (* a value is complete: a comma, a closing bracket or the end follows *)

Definition parse_step (st : pstate) (t : token) : Result pstate :=
  match st with
  | WantValue fresh stack =>
      match t with
      | TScalar v => ok (HaveValue v stack)
      | TString s => ok (HaveValue (VString s) stack)
      | TLBracket => ok (WantValue true (InArray [] :: stack))
      | TLBrace => ok (WantKey true [] stack)
      | TRBracket =>
          match fresh, stack with
          | true, InArray _ :: stack' => ok (HaveValue (VArray []) stack')
          | _, _ => unexpected_token
          end
      | _ => unexpected_token
      end
  | WantKey fresh done stack =>
      match t with
      | TString k => ok (WantColon done k stack)
      | TRBrace => if fresh then ok (HaveValue (VObject done) stack)
                   else unexpected_token
      | _ => unexpected_token
      end
  | WantColon done k stack =>
      match t with
      | TColon => ok (WantValue false (InObject done k :: stack))
      | _ => unexpected_token
      end
  | HaveValue v stack =>
      match stack, t with
      | InArray done :: stack', TComma =>
          ok (WantValue false (InArray (v :: done) :: stack'))
      | InArray done :: stack', TRBracket =>
          ok (HaveValue (VArray (rev (v :: done))) stack')
      | InObject done k :: stack', TComma =>
          ok (WantKey false (set_prop k v done) stack')
      | InObject done k :: stack', TRBrace =>
          ok (HaveValue (VObject (set_prop k v done)) stack')
      | _, _ => unexpected_token
      end
  end.

Fixpoint parse_tokens (st : pstate) (toks : list token) : Result Value :=
  match toks with
  | [] =>
      match st with
      | HaveValue v [] => ok v
      | _ => unexpected_end
      end
  | t :: toks' =>
      (st' <- parse_step st t ;; parse_tokens st' toks')%result
  end.

Definition parse (text : jsstring) : Result Value :=
  (toks <- lex LStart text ;; parse_tokens (WantValue false []) toks)%result.

End JSON.

(** ** Abstract operations of the language *)

Definition ToBoolean (v : Value) : bool :=
  match v with
  | VUndefined | VNull => false
  | VBool b => b
  | VNumber n => negb (Number_is_zero n)
  | VString s => match s with [] => false | _ => true end
  | VArray _ | VObject _ => true
  end.

(** [a || b] *)
Definition or_else (a b : Value) : Value :=
  if ToBoolean a then a else b.

(** The own property [k] of an object, [undefined] when it has none (and
    on anything that is not an object). *)
Definition lookup (v : Value) (k : jsstring) : Value :=
  match v with
  | VObject props =>
      match get_prop k props with Some x => x | None => VUndefined end
  | _ => VUndefined
  end.

Definition field (k : string) (v : Value) : Value := lookup v (js k).

(** [v[k]] for the property names the component reads, the [jsonKey]s of
    its column mapping: none of them is an array index, [length], or a
    property of a built-in prototype, so on anything but an object with
    that own property the access yields [undefined]; on [null] and
    [undefined] it throws. *)
Definition Get (v : Value) (k : jsstring) : Result Value :=
  match v with
  | VUndefined =>
      throw TypeError
        (js "Cannot read properties of undefined (reading '" ++ k ++ js "')")
  | VNull =>
      throw TypeError
        (js "Cannot read properties of null (reading '" ++ k ++ js "')")
  | _ => ok (lookup v k)
  end.

(** [{...target, ...src}], given the properties copied so far: spreading
    [undefined] or [null] copies nothing. *)
Definition spread (src : Value) (target : Props) : Props :=
  match src with
  | VObject props => fold_left (fun acc kv => set_prop (fst kv) (snd kv) acc) props target
  | _ => target
  end.

Definition of_option (o : option jsstring) : Value :=
  match o with Some s => VString s | None => VUndefined end.

Section Component.

(** [Number::toString] of a double that is not an exactly represented
    integer is the run time's shortest round-trip decimal; it is left
    open, and every property below holds whatever it returns. *)
Variable shortest_repr : Number -> jsstring.

Definition Number_toString (n : Number) : jsstring :=
  if Number_is_zero n then js "0"
  else match Number_safe_integer n with
       | Some z => (if negative n then js "-" else []) ++ decimal z
       | None => shortest_repr n
       end.

(** The string a template literal interpolates.  An array is joined with
    commas; a plain object prints as [[object Object]], unless it has an
    own [toString] property: decoded from JSON that property is not
    callable, and neither [valueOf] yields a primitive. *)
Fixpoint ToString (v : Value) : Result jsstring :=
  match v with
  | VUndefined => ok (js "undefined")
  | VNull => ok (js "null")
  | VBool b => ok (if b then js "true" else js "false")
  | VNumber n => ok (Number_toString n)
  | VString s => ok s
  | VArray elems =>
      let element x :=
        match x with
        | VUndefined | VNull => ok []
        | _ => ToString x
        end in
      (fix join (xs : list Value) : Result jsstring :=
         match xs with
         | [] => ok []
         | [x] => element x
         | x :: xs' =>
             (s <- element x ;; r <- join xs' ;; ok (s ++ js "," ++ r))%result
         end) elems
  | VObject props =>
      if has_prop (js "toString") props
      then throw TypeError (js "Cannot convert object to primitive value")
      else ok (js "[object Object]")
  end.

(** *** The component *)

Record ColDef := mkColDef {
  jsonKey : jsstring;
  label : jsstring;
  type : jsstring;
  urlFieldName : option jsstring;
  labelFieldName : option jsstring;
  typeAttributes : option Props
}.

Definition columnMapping : list ColDef :=
  [ mkColDef (js "caseIssueName") (js "Case Issue") (js "url")
      (Some (js "Case_Issue_Link_URL")) (Some (js "Case_Issue_Label")) None;
    mkColDef (js "citationForm") (js "Citation Form") (js "text")
      None None None;
    mkColDef (js "factor") (js "Factor") (js "number") None None
      (Some [ (js "minimumIntegerDigits", VNumber (Number_of_nat 1));
              (js "maximumFractionDigits", VNumber (Number_of_nat 5)) ]);
    mkColDef (js "caseIssueId") (js "Case Issue Id") (js "hidden")
      None None None ].

(** The tracked fields.  [recordId] and [autoJsonData] hold a string or
    nothing ([undefined] or [null]). *)
Record Component := mkComponent {
  recordId : option jsstring;
  autoTableData : Value;
  autoColumns : Value;
  autoJsonData : option jsstring;
  autoError : Value;
  isLoading : bool;
  dynamicTitle : jsstring
}.

Definition initial (id : option jsstring) : Component :=
  {| recordId := id;
     autoTableData := VUndefined;
     autoColumns := VUndefined;
     autoJsonData := None;
     autoError := VUndefined;
     isLoading := true;
     dynamicTitle := js "Payee Association" |}.

Definition set_autoTableData (v : Value) (c : Component) : Component :=
  mkComponent (recordId c) v (autoColumns c) (autoJsonData c)
    (autoError c) (isLoading c) (dynamicTitle c).
Definition set_autoColumns (v : Value) (c : Component) : Component :=
  mkComponent (recordId c) (autoTableData c) v (autoJsonData c)
    (autoError c) (isLoading c) (dynamicTitle c).
Definition set_autoJsonData (v : option jsstring) (c : Component) : Component :=
  mkComponent (recordId c) (autoTableData c) (autoColumns c) v
    (autoError c) (isLoading c) (dynamicTitle c).
Definition set_autoError (v : Value) (c : Component) : Component :=
  mkComponent (recordId c) (autoTableData c) (autoColumns c) (autoJsonData c)
    v (isLoading c) (dynamicTitle c).
Definition set_isLoading (b : bool) (c : Component) : Component :=
  mkComponent (recordId c) (autoTableData c) (autoColumns c) (autoJsonData c)
    (autoError c) b (dynamicTitle c).
Definition set_dynamicTitle (s : jsstring) (c : Component) : Component :=
  mkComponent (recordId c) (autoTableData c) (autoColumns c) (autoJsonData c)
    (autoError c) (isLoading c) s.

Definition waiting : jsstring := js "Waiting for record ID...".

Definition shouldShowFinalError (this : Component) : Value :=
  if ToBoolean (autoError this)
  then VBool (match autoError this with
              | VString s => if str_eq_dec s waiting then false else true
              | _ => true
              end)
  else autoError this.

(** Statements of a [try] block: they update the component and may
    throw, and what they assigned before throwing stays assigned. *)
Definition M (A : Type) := Component -> Result A * Component.

Definition ret {A} (a : A) : M A := fun this => (ok a, this).
Definition bind {A B} (m : M A) (f : A -> M B) : M B :=
  fun this =>
    match m this with
    | (inl e, this') => (inl e, this')
    | (inr a, this') => f a this'
    end.
Definition lift {A} (r : Result A) : M A := fun this => (r, this).
Definition assign (f : Component -> Component) : M unit :=
  fun this => (ok tt, f this).

Declare Scope try_scope.
Delimit Scope try_scope with try.
Notation "x <- m ;; k" := (bind m (fun x => k))
  (at level 61, m at next level, right associativity) : try_scope.
Notation "m ;; k" := (bind m (fun _ => k))
  (at level 61, right associativity) : try_scope.

(** [Array.prototype.map]: the callback sees each element and its
    index, in order; the first exception ends the traversal. *)
Fixpoint map_from {A} (f : Value -> nat -> Result A) (index : nat)
         (xs : list Value) : Result (list A) :=
  match xs with
  | [] => ok []
  | x :: xs' =>
      (y <- f x index ;; ys <- map_from f (S index) xs' ;; ok (y :: ys))%result
  end.

(** The [forEach] of the row callback:
    [newRow[colDef.jsonKey] = row[colDef.jsonKey]] for each entry. *)
Fixpoint copyFields (row : Value) (mapping : list ColDef) (newRow : Props)
  : Result Props :=
  match mapping with
  | [] => ok newRow
  | colDef :: mapping' =>
      (v <- Get row (jsonKey colDef) ;;
       copyFields row mapping' (set_prop (jsonKey colDef) v newRow))%result
  end.

(** The callback that maps a decoded element to a table row. *)
Definition mapRow (row : Value) (index : nat) : Result Value :=
  (let newRow := [(js "id", VNumber (Number_of_nat (index + 1)))] in
   v <- Get row (js "caseIssueId") ;;
   let caseIssueId := or_else v VNull in
   v <- Get row (js "caseIssueName") ;;
   let caseIssueName := or_else v VNull in
   url <- (if ToBoolean caseIssueId
           then (s <- ToString caseIssueId ;; ok (VString (js "/" ++ s)))
           else ok VNull) ;;
   let newRow := set_prop (js "Case_Issue_Link_URL") url newRow in
   let newRow := set_prop (js "Case_Issue_Label") caseIssueName newRow in
   newRow <- copyFields row columnMapping newRow ;;
   ok (VObject newRow))%result.

Definition not_hidden (col : ColDef) : bool :=
  if str_eq_dec (type col) (js "hidden") then false else true.

(** The callback that maps a visible mapping entry to its column. *)
Definition mapColumn (colDef : ColDef) : Value :=
  let columnDef :=
    [ (js "label", VString (label colDef));
      (js "fieldName", VString (jsonKey colDef));
      (js "type", VString (type colDef));
      (js "sortable", VBool true) ] in
  let columnDef :=
    if str_eq_dec (jsonKey colDef) (js "caseIssueName") then
      set_prop (js "typeAttributes")
        (VObject
           [ (js "label",
              VObject [(js "fieldName", of_option (labelFieldName colDef))]);
             (js "target", VString (js "_blank"));
             (js "tooltip", VString (js "Open Case Issue Record")) ])
        (set_prop (js "fieldName") (of_option (urlFieldName colDef)) columnDef)
    else columnDef in
  let columnDef :=
    match typeAttributes colDef with
    | Some attrs =>
        set_prop (js "typeAttributes")
          (VObject
             (spread (VObject attrs)
                (spread (field "typeAttributes" (VObject columnDef)) [])))
          columnDef
    | None => columnDef
    end in
  VObject columnDef.

Definition titleFor (recordCount : nat) : jsstring :=
  js "Payee Association (" ++ Number_toString (Number_of_nat recordCount)
    ++ js ")".

Definition invalidStructure : jsstring :=
  js "JSON structure is invalid: expected an array of objects.".

(** The [try] block of [convertJsonToTable]. *)
Definition convertJsonToTable_try (jsonString : jsstring) : M unit :=
  (parsedData <- lift (JSON.parse jsonString) ;;
   parsedData <- match parsedData with
                 | VString s => lift (JSON.parse s)
                 | _ => ret parsedData
                 end ;;
   match parsedData with
   | VArray elems =>
       let recordCount := List.length elems in
       assign (set_dynamicTitle (titleFor recordCount)) ;;
       dataForTable <- lift (map_from mapRow 0 elems) ;;
       let cols := map mapColumn (filter not_hidden columnMapping) in
       let tableData := dataForTable in
       assign (set_autoColumns (VArray cols)) ;;
       assign (set_autoTableData (VArray tableData))
   | _ => lift (throw PlainError invalidStructure)
   end)%try.

(** [convertJsonToTable]: the [try] block, and the [catch] clause on
    the state the block left.  (The console line is not modelled.) *)
Definition convertJsonToTable (jsonString : jsstring) (this : Component)
  : Component :=
  match convertJsonToTable_try jsonString this with
  | (inr _, this') => this'
  | (inl e, this') =>
      set_dynamicTitle (js "Payee Association (0)")
        (set_autoColumns VNull
           (set_autoTableData VNull
              (set_autoError (VString (message e)) this')))
  end.

Definition processAutoJson (this : Component) : Component :=
  match autoJsonData this with
  | Some (c :: s) => convertJsonToTable (c :: s) this
  | _ => this
  end.

(** What the wire adapter hands over.  [data] carries the value of the
    JSON field of the record, a string or [null]; an [error] carries
    [error.body.message] when it has a body, and [error.message]. *)
Record WireError := mkWireError {
  body_message : option Value;
  error_message : Value
}.

Record Provisioned := mkProvisioned {
  error : option WireError;
  data : option (option jsstring)
}.

Definition unknownError : jsstring :=
  js "An unknown error occurred while fetching record data.".

Definition wiredPayeeRecord (p : Provisioned) (this : Component) : Component :=
  match recordId this with
  | None | Some [] =>
      set_isLoading true (set_autoError (VString waiting) this)
  | Some _ =>
      match data p, error p with
      | Some jsonValue, _ =>
          let this := set_autoError VNull this in
          let this := set_autoJsonData jsonValue this in
          let this := processAutoJson this in
          set_isLoading false this
      | None, Some e =>
          let msg :=
            match body_message e with
            | Some m =>
                if ToBoolean m then m
                else or_else (error_message e) (VString unknownError)
            | None => or_else (error_message e) (VString unknownError)
            end in
          let this := set_autoError msg this in
          let this := set_autoJsonData None this in
          let this := set_dynamicTitle (js "Payee Association (0)") this in
          set_isLoading false this
      | None, None => this
      end
  end.

(** *** Vocabulary of the properties *)

(** Lines 68-69: the payload decoded, and decoded once more when the
    first pass yields a string. *)
Definition decode (jsonString : jsstring) : Result Value :=
  (parsedData <- JSON.parse jsonString ;;
   match parsedData with
   | VString s => JSON.parse s
   | _ => ok parsedData
   end)%result.

Definition is_scalar (v : Value) : bool :=
  match v with
  | VArray _ | VObject _ => false
  | _ => true
  end.

(** A flat object: every member is a scalar. *)
Definition flat_object (v : Value) : bool :=
  match v with
  | VObject props => forallb (fun kv => is_scalar (snd kv)) props
  | _ => false
  end.

Definition is_object (v : Value) : bool :=
  match v with
  | VObject _ => true
  | _ => false
  end.

Definition columns : list Value :=
  map mapColumn (filter not_hidden columnMapping).

(** What the link cell derives from the [caseIssueId] of a record. *)
Definition linkUrl (caseIssueId : Value) : Result Value :=
  if ToBoolean caseIssueId
  then (s <- ToString caseIssueId ;; ok (VString (js "/" ++ s)))%result
  else ok VNull.

(** The row of an element that is neither [null] nor [undefined]: it
    fails only when the link target cannot be converted to a string. *)
Definition rowOf (row : Value) (index : nat) : Result Value :=
  (url <- linkUrl (or_else (lookup row (js "caseIssueId")) VNull) ;;
   ok (VObject
         [ (js "id", VNumber (Number_of_nat (index + 1)));
           (js "Case_Issue_Link_URL", url);
           (js "Case_Issue_Label",
            or_else (lookup row (js "caseIssueName")) VNull);
           (js "caseIssueName", lookup row (js "caseIssueName"));
           (js "citationForm", lookup row (js "citationForm"));
           (js "factor", lookup row (js "factor"));
           (js "caseIssueId", lookup row (js "caseIssueId")) ]))%result.

(** What the [try] block computes: the record count and the rows, or the
    exception that ends it. *)
Definition projection (jsonString : jsstring) : Result (nat * list Value) :=
  (parsedData <- decode jsonString ;;
   match parsedData with
   | VArray elems =>
       rows <- map_from mapRow 0 elems ;; ok (List.length elems, rows)
   | _ => throw PlainError invalidStructure
   end)%result.

Definition shown (n : nat) (rows : list Value) (this : Component) : Component :=
  set_autoTableData (VArray rows)
    (set_autoColumns (VArray columns) (set_dynamicTitle (titleFor n) this)).

Definition failed (msg : jsstring) (this : Component) : Component :=
  set_dynamicTitle (js "Payee Association (0)")
    (set_autoColumns VNull
       (set_autoTableData VNull (set_autoError (VString msg) this))).

(** A mapping entry is the link entry when its key is [caseIssueName];
    its column then carries these rendering hints. *)
Definition is_link (colDef : ColDef) : bool :=
  if str_eq_dec (jsonKey colDef) (js "caseIssueName") then true else false.

Definition linkHints (colDef : ColDef) : Props :=
  [ (js "label", VObject [(js "fieldName", of_option (labelFieldName colDef))]);
    (js "target", VString (js "_blank"));
    (js "tooltip", VString (js "Open Case Issue Record")) ].

Definition defaultHint (colDef : ColDef) (k : jsstring) : Value :=
  if is_link colDef then lookup (VObject (linkHints colDef)) k else VUndefined.

Definition entryHint (colDef : ColDef) (k : jsstring) : option Value :=
  match typeAttributes colDef with
  | Some attrs => get_prop k attrs
  | None => None
  end.

(** The keys of an object are pairwise different. *)
Definition well_formed (colDef : ColDef) : Prop :=
  match typeAttributes colDef with
  | Some attrs => NoDup (map fst attrs)
  | None => True
  end.

(** The column [col] describes the mapping entry [colDef]. *)
Definition describes (colDef : ColDef) (col : Value) : Prop :=
  field "label" col = VString (label colDef) /\
  field "type" col = VString (type colDef) /\
  field "sortable" col = VBool true /\
  field "fieldName" col =
    (if is_link colDef then of_option (urlFieldName colDef)
     else VString (jsonKey colDef)) /\
  (field "typeAttributes" col = VUndefined <->
   is_link colDef = false /\ typeAttributes colDef = None) /\
  forall k,
    lookup (field "typeAttributes" col) k =
      match entryHint colDef k with
      | Some v => v
      | None => defaultHint colDef k
      end.

(** *** Sample inputs *)

(** A rendering of numbers to instantiate the development with: the
    literal in scientific notation.  It is not the run time's shortest
    decimal, and no sample below renders a number through it. *)
Definition scientific (n : Number) : jsstring :=
  (if negative n then js "-" else []) ++ decimal (coeff n) ++ js "e"
    ++ (if (exp10 n <? 0)%Z then js "-" else []) ++ decimal (Z.abs_N (exp10 n)).

(** [[{"caseIssueId":"a1","caseIssueName":"Wage Claim",
       "citationForm":"12-CV","factor":0.25}]] *)
Definition wageClaim : jsstring :=
  js "[{" ++ quoted "caseIssueId" ++ js ":" ++ quoted "a1" ++ js ","
    ++ quoted "caseIssueName" ++ js ":" ++ quoted "Wage Claim" ++ js ","
    ++ quoted "citationForm" ++ js ":" ++ quoted "12-CV" ++ js ","
    ++ quoted "factor" ++ js ":0.25}]".

Definition wageClaimRecords : list Value :=
  [ VObject
      [ (js "caseIssueId", VString (js "a1"));
        (js "caseIssueName", VString (js "Wage Claim"));
        (js "citationForm", VString (js "12-CV"));
        (js "factor", VNumber (mkNumber false 25 (-2))) ] ].

(** [[{"caseIssueId":"a1B"}]], and the same text encoded once more as a
    JSON string. *)
Definition a1B : jsstring :=
  js "[{" ++ quoted "caseIssueId" ++ js ":" ++ quoted "a1B" ++ js "}]".

Definition a1BRecords : list Value :=
  [ VObject [ (js "caseIssueId", VString (js "a1B")) ] ].

Definition a1BRow : Value :=
  VObject
    [ (js "id", VNumber (Number_of_nat 1));
      (js "Case_Issue_Link_URL", VString (js "/a1B"));
      (js "Case_Issue_Label", VNull);
      (js "caseIssueName", VUndefined);
      (js "citationForm", VUndefined);
      (js "factor", VUndefined);
      (js "caseIssueId", VString (js "a1B")) ].

Definition escapedQuote : jsstring := [Ch.backslash; Ch.quote].

Definition a1BEncoded : jsstring :=
  Ch.quote :: js "[{" ++ escapedQuote ++ js "caseIssueId" ++ escapedQuote
    ++ js ":" ++ escapedQuote ++ js "a1B" ++ escapedQuote ++ js "}]"
    ++ [Ch.quote].

(** [[{"caseIssueName":"Wage Claim"}]] and [[{"caseIssueName":""}]] *)
Definition namedOnly : jsstring :=
  js "[{" ++ quoted "caseIssueName" ++ js ":" ++ quoted "Wage Claim" ++ js "}]".

Definition namedOnlyRecords : list Value :=
  [ VObject [ (js "caseIssueName", VString (js "Wage Claim")) ] ].

Definition namedOnlyRow : Value :=
  VObject
    [ (js "id", VNumber (Number_of_nat 1));
      (js "Case_Issue_Link_URL", VNull);
      (js "Case_Issue_Label", VString (js "Wage Claim"));
      (js "caseIssueName", VString (js "Wage Claim"));
      (js "citationForm", VUndefined);
      (js "factor", VUndefined);
      (js "caseIssueId", VUndefined) ].

Definition emptyName : jsstring :=
  js "[{" ++ quoted "caseIssueName" ++ js ":" ++ [Ch.quote; Ch.quote]
    ++ js "}]".

Definition emptyNameRecord : Value :=
  VObject [ (js "caseIssueName", VString []) ].

(** The row of the scalar element of [[1]]. *)
Definition blankRow : Value :=
  VObject
    [ (js "id", VNumber (Number_of_nat 1));
      (js "Case_Issue_Link_URL", VNull);
      (js "Case_Issue_Label", VNull);
      (js "caseIssueName", VUndefined);
      (js "citationForm", VUndefined);
      (js "factor", VUndefined);
      (js "caseIssueId", VUndefined) ].

(** A record was fetched, then a later fetch fails. *)
Definition fetched : Provisioned :=
  mkProvisioned None (Some (Some wageClaim)).

Definition fetchFailure : Provisioned :=
  mkProvisioned
    (Some (mkWireError None (VString (js "Record not found")))) None.

Definition bound : Component := initial (Some (js "a0X5e000001AbCd")).

(** [selects P l l']: [l'] keeps the elements of [l] that satisfy [P],
    all of them and no other, in the order of [l]. *)
Inductive selects {A} (P : A -> Prop) : list A -> list A -> Prop :=
| selects_nil : selects P [] []
| selects_keep x l l' : P x -> selects P l l' -> selects P (x :: l) (x :: l')
| selects_drop x l l' : ~ P x -> selects P l l' -> selects P (x :: l) l'.

(** A mapping entry is shown when its type is not [hidden]. *)
Definition is_shown (colDef : ColDef) : Prop := type colDef <> js "hidden".

(** The three columns of the data table, written out. *)
Definition expectedColumns : list Value :=
  [ VObject
      [ (js "label", VString (js "Case Issue"));
        (js "fieldName", VString (js "Case_Issue_Link_URL"));
        (js "type", VString (js "url"));
        (js "sortable", VBool true);
        (js "typeAttributes",
         VObject
           [ (js "label",
              VObject [ (js "fieldName", VString (js "Case_Issue_Label")) ]);
             (js "target", VString (js "_blank"));
             (js "tooltip", VString (js "Open Case Issue Record")) ]) ];
    VObject
      [ (js "label", VString (js "Citation Form"));
        (js "fieldName", VString (js "citationForm"));
        (js "type", VString (js "text"));
        (js "sortable", VBool true) ];
    VObject
      [ (js "label", VString (js "Factor"));
        (js "fieldName", VString (js "factor"));
        (js "type", VString (js "number"));
        (js "sortable", VBool true);
        (js "typeAttributes",
         VObject
           [ (js "minimumIntegerDigits", VNumber (Number_of_nat 1));
             (js "maximumFractionDigits", VNumber (Number_of_nat 5)) ]) ] ].

(** *** Vocabulary of the further properties *)

(** The keys of a row, in the order the row callback creates them. *)
Definition rowKeys : list jsstring :=
  [ js "id"; js "Case_Issue_Link_URL"; js "Case_Issue_Label";
    js "caseIssueName"; js "citationForm"; js "factor"; js "caseIssueId" ].

Definition keys_of (v : Value) : list jsstring :=
  match v with
  | VObject props => map fst props
  | _ => []
  end.

(** An object whose [caseIssueId] is absent or a scalar; its other
    members may be arrays or objects. *)
Definition linkable (v : Value) : bool :=
  is_object v && is_scalar (lookup v (js "caseIssueId")).

(** [[{"caseIssueId":"a1B","factor":{"min":1},"note":"x"}]] *)
Definition nested : jsstring :=
  js "[{" ++ quoted "caseIssueId" ++ js ":" ++ quoted "a1B" ++ js ","
    ++ quoted "factor" ++ js ":{" ++ quoted "min" ++ js ":1},"
    ++ quoted "note" ++ js ":" ++ quoted "x" ++ js "}]".

Definition nestedRecord : Value :=
  VObject
    [ (js "caseIssueId", VString (js "a1B"));
      (js "factor", VObject [ (js "min", VNumber (Number_of_nat 1)) ]);
      (js "note", VString (js "x")) ].

Definition nestedRow : Value :=
  VObject
    [ (js "id", VNumber (Number_of_nat 1));
      (js "Case_Issue_Link_URL", VString (js "/a1B"));
      (js "Case_Issue_Label", VNull);
      (js "caseIssueName", VUndefined);
      (js "citationForm", VUndefined);
      (js "factor", VObject [ (js "min", VNumber (Number_of_nat 1)) ]);
      (js "caseIssueId", VString (js "a1B")) ].

(** [[{},null]] and [["x",[2]]] *)
Definition withNull : jsstring := js "[{},null]".

Definition scalars : jsstring := js "[" ++ quoted "x" ++ js ",[2]]".

Definition scalarsRecords : list Value :=
  [ VString (js "x"); VArray [ VNumber (Number_of_nat 2) ] ].

(** The unbound component, and deliveries of the wire adapter. *)
Definition unbound : Component := initial None.

Definition withoutJson : Provisioned := mkProvisioned None (Some None).

Definition notAnArray : Provisioned :=
  mkProvisioned None (Some (Some (js "{}"))).

Definition silentFailure : Provisioned :=
  mkProvisioned (Some (mkWireError (Some (VString [])) VUndefined)) None.

(** *** Properties and assignment *)

Lemma get_prop_set_prop_same k v o : get_prop k (set_prop k v o) = Some v.
Proof.
  induction o as [|[k' v'] o IH]; simpl.
  - destruct (str_eq_dec k k); congruence.
  - destruct (str_eq_dec k k') as [->|Hne]; simpl.
    + destruct (str_eq_dec k' k'); congruence.
    + destruct (str_eq_dec k k'); congruence.
Qed.

Lemma get_prop_set_prop_other k k' v o :
  k <> k' -> get_prop k (set_prop k' v o) = get_prop k o.
Proof.
  intros Hne. induction o as [|[k2 v2] o IH]; simpl.
  - destruct (str_eq_dec k k'); congruence.
  - destruct (str_eq_dec k' k2) as [->|Hne2]; simpl.
    + destruct (str_eq_dec k k2); congruence.
    + destruct (str_eq_dec k k2); congruence.
Qed.

Lemma mapRow_rowOf row index :
  row <> VNull -> row <> VUndefined -> mapRow row index = rowOf row index.
Proof.
  intros Hn Hu. unfold mapRow, rowOf, linkUrl.
  assert (HG : forall k, Get row k = ok (lookup row k)).
  { intros k. destruct row; try reflexivity; congruence. }
  rewrite !HG. cbv beta iota delta [rbind ok].
  destruct (ToBoolean (or_else (lookup row (js "caseIssueId")) VNull)).
  - destruct (ToString (or_else (lookup row (js "caseIssueId")) VNull));
      [reflexivity|].
    simpl. rewrite !HG. reflexivity.
  - simpl. rewrite !HG. reflexivity.
Qed.

(** *** The traversal *)

Lemma map_from_length {A} (f : Value -> nat -> Result A) xs :
  forall index ys, map_from f index xs = ok ys -> List.length ys = List.length xs.
Proof.
  induction xs as [|x xs IH]; simpl; intros index ys H.
  - inversion H; reflexivity.
  - destruct (f x index) as [e|y]; simpl in H; [discriminate|].
    destruct (map_from f (S index) xs) as [e|ys'] eqn:E; simpl in H;
      [discriminate|].
    inversion H; subst; simpl. f_equal. eapply IH; eassumption.
Qed.

Lemma map_from_nth {A} (f : Value -> nat -> Result A) xs :
  forall index ys i x,
    map_from f index xs = ok ys ->
    nth_error xs i = Some x ->
    exists y, nth_error ys i = Some y /\ f x (index + i) = ok y.
Proof.
  induction xs as [|x0 xs IH]; simpl; intros index ys i x H Hx.
  - destruct i; discriminate.
  - destruct (f x0 index) as [e|y0] eqn:E0; simpl in H; [discriminate|].
    destruct (map_from f (S index) xs) as [e|ys'] eqn:E; simpl in H;
      [discriminate|].
    inversion H; subst; clear H.
    destruct i as [|i]; simpl in *.
    + inversion Hx; subst. exists y0. rewrite Nat.add_0_r. auto.
    + destruct (IH _ _ _ _ E Hx) as [y [Hy Hf]].
      exists y. split; [assumption|].
      replace (index + S i) with (S index + i) by lia. assumption.
Qed.

Lemma map_from_total {A} (f : Value -> nat -> Result A) xs :
  (forall x index, In x xs -> exists y, f x index = ok y) ->
  forall index, exists ys, map_from f index xs = ok ys.
Proof.
  induction xs as [|x xs IH]; simpl; intros Hf index.
  - eexists; reflexivity.
  - destruct (Hf x index (or_introl eq_refl)) as [y Hy]. rewrite Hy. simpl.
    destruct (IH (fun x' i H => Hf x' i (or_intror H)) (S index)) as [ys Hys].
    rewrite Hys. simpl. eexists; reflexivity.
Qed.

(** *** The conversion as a whole *)

Ltac by_cases_of_traversal :=
  simpl; try reflexivity;
  match goal with
  | |- context [map_from mapRow 0 ?elems] =>
      destruct (map_from mapRow 0 elems); reflexivity
  end.

Lemma try_projection jsonString this :
  fst (convertJsonToTable_try jsonString this) =
    (r <- projection jsonString ;; ok tt)%result.
Proof.
  unfold convertJsonToTable_try, projection, decode, bind, lift, ret, assign.
  destruct (JSON.parse jsonString) as [e|v]; [reflexivity|].
  destruct v as [| |b|n|s|elems|props]; try by_cases_of_traversal.
  simpl. destruct (JSON.parse s) as [e|v]; [reflexivity|].
  destruct v; by_cases_of_traversal.
Qed.

Lemma convert_projection jsonString this :
  convertJsonToTable jsonString this =
    match projection jsonString with
    | inr (n, rows) => shown n rows this
    | inl e => failed (message e) this
    end.
Proof.
  unfold convertJsonToTable, convertJsonToTable_try, projection, decode,
    bind, lift, ret, assign, shown, failed, columns.
  destruct this.
  destruct (JSON.parse jsonString) as [e|v]; [reflexivity|].
  destruct v as [| |b|n|s|elems|props]; try by_cases_of_traversal.
  simpl. destruct (JSON.parse s) as [e|v]; [reflexivity|].
  destruct v; by_cases_of_traversal.
Qed.

(** *** Rows *)

Lemma ToString_scalar v : is_scalar v = true -> exists s, ToString v = ok s.
Proof. destruct v; simpl; try discriminate; eauto. Qed.

Lemma lookup_flat row k : flat_object row = true -> is_scalar (lookup row k) = true.
Proof.
  destruct row; try discriminate. simpl.
  induction props as [|[k' v'] props IH]; simpl; [reflexivity|].
  intros H. apply andb_prop in H. destruct H as [Hv Hrest]. simpl in Hv.
  destruct (str_eq_dec k k'); auto.
Qed.

Lemma is_scalar_or_null v : is_scalar v = true -> is_scalar (or_else v VNull) = true.
Proof. unfold or_else. destruct (ToBoolean v); auto. Qed.

Lemma linkUrl_scalar v : is_scalar v = true -> exists url, linkUrl v = ok url.
Proof.
  intros H. unfold linkUrl. destruct (ToBoolean v); [|eauto].
  destruct (ToString_scalar v H) as [s ->]. simpl. eauto.
Qed.

Lemma mapRow_flat row index :
  flat_object row = true -> exists newRow, mapRow row index = ok newRow.
Proof.
  intros H. rewrite mapRow_rowOf by (destruct row; discriminate).
  unfold rowOf.
  destruct (linkUrl_scalar _ (is_scalar_or_null _ (lookup_flat row (js "caseIssueId") H)))
    as [url ->].
  simpl. eauto.
Qed.

Lemma mapRow_inv row index newRow :
  mapRow row index = ok newRow -> rowOf row index = ok newRow.
Proof.
  intros H. rewrite <- mapRow_rowOf; [assumption| |];
    intros ->; discriminate H.
Qed.

Lemma rowOf_inv row index newRow :
  rowOf row index = ok newRow ->
  exists url,
    linkUrl (or_else (lookup row (js "caseIssueId")) VNull) = ok url /\
    newRow =
      VObject
        [ (js "id", VNumber (Number_of_nat (index + 1)));
          (js "Case_Issue_Link_URL", url);
          (js "Case_Issue_Label",
           or_else (lookup row (js "caseIssueName")) VNull);
          (js "caseIssueName", lookup row (js "caseIssueName"));
          (js "citationForm", lookup row (js "citationForm"));
          (js "factor", lookup row (js "factor"));
          (js "caseIssueId", lookup row (js "caseIssueId")) ].
Proof.
  unfold rowOf.
  destruct (linkUrl (or_else (lookup row (js "caseIssueId")) VNull)) as [e|url];
    simpl; intros H; [discriminate|].
  exists url. split; [reflexivity|]. inversion H; reflexivity.
Qed.

(** A conversion that leaves rows behind decoded an array and mapped
    each of its elements. *)
Lemma projected payload elems rows this :
  decode payload = ok (VArray elems) ->
  autoTableData (convertJsonToTable payload this) = VArray rows ->
  map_from mapRow 0 elems = ok rows /\
  convertJsonToTable payload this = shown (List.length elems) rows this.
Proof.
  intros Hd Hrows. rewrite convert_projection in *. unfold projection in *.
  rewrite Hd in *. simpl in *.
  destruct (map_from mapRow 0 elems) as [e|rows']; simpl in *.
  - destruct this; discriminate.
  - destruct this; simpl in *. inversion Hrows; subst. auto.
Qed.

Lemma projected_row payload elems rows this i source row :
  decode payload = ok (VArray elems) ->
  autoTableData (convertJsonToTable payload this) = VArray rows ->
  nth_error elems i = Some source ->
  nth_error rows i = Some row ->
  rowOf source i = ok row.
Proof.
  intros Hd Hrows Hs Hr.
  destruct (projected _ _ Hd Hrows) as [Hmap _].
  destruct (map_from_nth _ _ _ _ Hmap Hs) as [row' [Hr' Hf]].
  simpl in Hf. apply mapRow_inv in Hf. congruence.
Qed.

Lemma Number_toString_of_nat n :
  (N.of_nat n <= 2 ^ 53)%N ->
  Number_toString (Number_of_nat n) = decimal (N.of_nat n).
Proof.
  intros Hn. unfold Number_toString, Number_is_zero, Number_safe_integer.
  cbn [Number_of_nat exp10 coeff negative]. change (0 <=? 0)%Z with true.
  cbv iota.
  destruct (N.eqb_spec (N.of_nat n) 0) as [->|Hnz]; [reflexivity|].
  change (10 ^ 0)%Z with 1%Z. rewrite Z.mul_1_r.
  destruct (Z.leb_spec (Z.of_N (N.of_nat n)) (2 ^ 53)) as [_|Hgt].
  - rewrite N2Z.id. reflexivity.
  - exfalso. change (2 ^ 53)%Z with (Z.of_N (2 ^ 53)) in Hgt. lia.
Qed.

(** C1: a payload that decodes, directly or through one more string
    decoding, to an array of N flat objects is converted without error
    into exactly N rows; the row at index i has id i+1 and the title is
    "Payee Association (N)"; an empty array gives no row and the title
    "Payee Association (0)". *)
Theorem C1_rows_ids_title payload elems this :
  decode payload = ok (VArray elems) ->
  forallb flat_object elems = true ->
  (N.of_nat (List.length elems) < 2 ^ 32)%N ->
  exists rows,
    fst (convertJsonToTable_try payload this) = ok tt /\
    autoTableData (convertJsonToTable payload this) = VArray rows /\
    List.length rows = List.length elems /\
    (forall i row, nth_error rows i = Some row ->
       field "id" row = VNumber (Number_of_nat (i + 1))) /\
    dynamicTitle (convertJsonToTable payload this) =
      js "Payee Association (" ++ decimal (N.of_nat (List.length elems))
        ++ js ")" /\
    (elems = [] ->
     rows = [] /\
     dynamicTitle (convertJsonToTable payload this) =
       js "Payee Association (0)").
Proof.
  intros Hd Hflat Hlen.
  destruct (map_from_total mapRow elems) with (index := 0) as [rows Hrows].
  { intros x index Hx. apply mapRow_flat.
    rewrite forallb_forall in Hflat. auto. }
  assert (Hp : projection payload = ok (List.length elems, rows)).
  { unfold projection. rewrite Hd. simpl. rewrite Hrows. reflexivity. }
  assert (Htitle : dynamicTitle (convertJsonToTable payload this) =
            js "Payee Association (" ++ decimal (N.of_nat (List.length elems))
              ++ js ")").
  { rewrite convert_projection, Hp. destruct this; simpl.
    unfold titleFor. rewrite Number_toString_of_nat; [reflexivity|].
    assert (2 ^ 32 <= 2 ^ 53)%N by (vm_compute; discriminate). lia. }
  exists rows. repeat split.
  - rewrite try_projection, Hp. reflexivity.
  - rewrite convert_projection, Hp. destruct this; reflexivity.
  - eapply map_from_length; eassumption.
  - intros i row Hr.
    assert (Hi : i < List.length elems).
    { rewrite <- (map_from_length _ _ _ Hrows). apply nth_error_Some. congruence. }
    destruct (nth_error elems i) as [source|] eqn:Hs;
      [|apply nth_error_None in Hs; lia].
    destruct (map_from_nth _ _ _ _ Hrows Hs) as [row' [Hr' Hf]].
    assert (row' = row) by congruence. subst row'.
    simpl in Hf. apply mapRow_inv, rowOf_inv in Hf.
    destruct Hf as [url [_ ->]]. reflexivity.
  - exact Htitle.
  - subst elems. simpl in Hrows. inversion Hrows. reflexivity.
  - subst elems. rewrite Htitle. reflexivity.
Qed.

(** *** Failures *)

(** Whatever ends the [try] block early, the [catch] clause records the
    message, drops rows and columns and resets the title. *)
Lemma convert_failure_clears jsonString this e :
  fst (convertJsonToTable_try jsonString this) = inl e ->
  autoError (convertJsonToTable jsonString this) = VString (message e) /\
  dynamicTitle (convertJsonToTable jsonString this) =
    js "Payee Association (0)" /\
  autoTableData (convertJsonToTable jsonString this) = VNull /\
  autoColumns (convertJsonToTable jsonString this) = VNull.
Proof.
  rewrite try_projection, convert_projection.
  destruct (projection jsonString) as [e'|[n rows]]; simpl; intros H;
    inversion H; subst. destruct this; simpl; auto.
Qed.

Lemma malformed_json_rejected jsonString this e :
  decode jsonString = inl e ->
  fst (convertJsonToTable_try jsonString this) = inl e.
Proof.
  intros H. rewrite try_projection. unfold projection. rewrite H. reflexivity.
Qed.

(** The error branch of the wire handler assigns the error, the JSON
    text, the title and the loading flag, and nothing else. *)
Lemma wired_error_keeps_table e this :
  autoTableData (wiredPayeeRecord (mkProvisioned (Some e) None) this) =
    autoTableData this /\
  autoColumns (wiredPayeeRecord (mkProvisioned (Some e) None) this) =
    autoColumns this.
Proof.
  unfold wiredPayeeRecord. destruct this as [[[|c id]|] t cs j er l ti];
    simpl; auto.
Qed.

(** C2, the conversion and the wire handler run on a concrete history:
    the record is fetched and its table computed, then a later fetch
    fails.  The message is recorded and the title reset, but the rows and
    the columns of the earlier table stay where they were, whereas the
    same state is cleared when it is a conversion that fails. *)
Theorem C2_fetch_error_keeps_stale_table :
  let loaded := wiredPayeeRecord fetched bound in
  let after := wiredPayeeRecord fetchFailure loaded in
  autoError after = VString (js "Record not found") /\
  dynamicTitle after = js "Payee Association (0)" /\
  (exists row, autoTableData after = VArray [row]) /\
  (exists c1 c2 c3, autoColumns after = VArray [c1; c2; c3]) /\
  autoTableData after = autoTableData loaded /\
  autoColumns after = autoColumns loaded /\
  autoTableData (convertJsonToTable (js "{not json") loaded) = VNull /\
  autoColumns (convertJsonToTable (js "{not json") loaded) = VNull.
Proof.
  vm_compute. repeat split; eauto.
Qed.

(** C3, as the code has it: a payload whose decoding is not an array (a
    single object, a scalar) is refused by the explicit check of the
    top-level shape, with the fixed message "JSON structure is invalid:
    expected an array of objects."; the message is recorded, the title
    reset, rows and columns dropped. *)
Theorem C3_non_array_rejected payload v this :
  decode payload = ok v ->
  (forall elems, v <> VArray elems) ->
  fst (convertJsonToTable_try payload this) =
    throw PlainError invalidStructure /\
  autoError (convertJsonToTable payload this) =
    VString (js "JSON structure is invalid: expected an array of objects.") /\
  dynamicTitle (convertJsonToTable payload this) =
    js "Payee Association (0)" /\
  autoTableData (convertJsonToTable payload this) = VNull /\
  autoColumns (convertJsonToTable payload this) = VNull.
Proof.
  intros Hd Hv.
  assert (Hp : projection payload = throw PlainError invalidStructure).
  { unfold projection. rewrite Hd. simpl.
    destruct v; try reflexivity. exfalso. eapply Hv. reflexivity. }
  rewrite try_projection, convert_projection, Hp.
  destruct this; simpl; auto.
Qed.

(** *** Derived fields *)

(** C4: in a converted array, a record whose caseIssueId is truthy gets
    the link target "/" followed by that caseIssueId (as the template
    literal prints it; a string is taken as it is), and a record whose
    caseIssueId is absent or falsy gets the link target null. *)
Theorem C4_link_url payload elems rows this i source row :
  decode payload = ok (VArray elems) ->
  autoTableData (convertJsonToTable payload this) = VArray rows ->
  nth_error elems i = Some source ->
  nth_error rows i = Some row ->
  let caseIssueId := lookup source (js "caseIssueId") in
  (ToBoolean caseIssueId = true ->
   exists s, ToString caseIssueId = ok s /\
             field "Case_Issue_Link_URL" row = VString (js "/" ++ s)) /\
  (forall s, caseIssueId = VString s -> s <> [] ->
             field "Case_Issue_Link_URL" row = VString (js "/" ++ s)) /\
  (ToBoolean caseIssueId = false ->
   field "Case_Issue_Link_URL" row = VNull).
Proof.
  intros Hd Hrows Hs Hr caseIssueId.
  pose proof (@projected_row _ _ _ _ _ _ _ Hd Hrows Hs Hr) as Hrow.
  apply rowOf_inv in Hrow. destruct Hrow as [url [Hurl ->]].
  fold caseIssueId in Hurl. unfold linkUrl, or_else in Hurl.
  assert (Htrue : ToBoolean caseIssueId = true ->
            exists s, ToString caseIssueId = ok s /\ url = VString (js "/" ++ s)).
  { intros Ht. rewrite Ht in Hurl. rewrite Ht in Hurl.
    destruct (ToString caseIssueId) as [e|s]; simpl in Hurl; [discriminate|].
    exists s. split; [reflexivity|]. inversion Hurl; reflexivity. }
  repeat split.
  - intros Ht. destruct (Htrue Ht) as [s [Hs' ->]]. exists s. auto.
  - intros s Hv Hne.
    destruct Htrue as [s' [Hs' ->]].
    { rewrite Hv. destruct s; [congruence|reflexivity]. }
    rewrite Hv in Hs'. simpl in Hs'. inversion Hs'; subst. reflexivity.
  - intros Hf. rewrite Hf in Hurl. simpl in Hurl. inversion Hurl; reflexivity.
Qed.

(** C5, as the code has it: in a converted array, the link label of a
    row is the caseIssueName of its record when that value is truthy, and
    null when it is absent or falsy. *)
Theorem C5_link_label payload elems rows this i source row :
  decode payload = ok (VArray elems) ->
  autoTableData (convertJsonToTable payload this) = VArray rows ->
  nth_error elems i = Some source ->
  nth_error rows i = Some row ->
  let caseIssueName := lookup source (js "caseIssueName") in
  (ToBoolean caseIssueName = true ->
   field "Case_Issue_Label" row = caseIssueName) /\
  (ToBoolean caseIssueName = false ->
   field "Case_Issue_Label" row = VNull).
Proof.
  intros Hd Hrows Hs Hr caseIssueName.
  pose proof (@projected_row _ _ _ _ _ _ _ Hd Hrows Hs Hr) as Hrow.
  apply rowOf_inv in Hrow. destruct Hrow as [url [_ ->]].
  fold caseIssueName. unfold field, or_else; simpl.
  split; intros ->; reflexivity.
Qed.

(** C6: a payload that decodes to a string which itself decodes to an
    array is converted exactly as that string is: same title, same
    columns, same rows. *)
Theorem C6_double_encoding payload inner elems this :
  JSON.parse payload = ok (VString inner) ->
  JSON.parse inner = ok (VArray elems) ->
  dynamicTitle (convertJsonToTable payload this) =
    dynamicTitle (convertJsonToTable inner this) /\
  autoColumns (convertJsonToTable payload this) =
    autoColumns (convertJsonToTable inner this) /\
  autoTableData (convertJsonToTable payload this) =
    autoTableData (convertJsonToTable inner this).
Proof.
  intros Hp Hi.
  assert (H : projection payload = projection inner).
  { unfold projection, decode. rewrite Hp, Hi. simpl. rewrite Hi. reflexivity. }
  rewrite !convert_projection, H. auto.
Qed.

(** C7: when a record of an array of flat objects lacks the jsonKey of a
    mapping entry, the conversion still ends without error, and the row
    holds undefined under that key. *)
Theorem C7_missing_key payload elems this :
  decode payload = ok (VArray elems) ->
  forallb flat_object elems = true ->
  exists rows,
    fst (convertJsonToTable_try payload this) = ok tt /\
    autoError (convertJsonToTable payload this) = autoError this /\
    autoTableData (convertJsonToTable payload this) = VArray rows /\
    forall i props colDef,
      nth_error elems i = Some (VObject props) ->
      In colDef columnMapping ->
      get_prop (jsonKey colDef) props = None ->
      exists row, nth_error rows i = Some row /\
                  lookup row (jsonKey colDef) = VUndefined.
Proof.
  intros Hd Hflat.
  destruct (map_from_total mapRow elems) with (index := 0) as [rows Hrows].
  { intros x index Hx. apply mapRow_flat.
    rewrite forallb_forall in Hflat. auto. }
  assert (Hp : projection payload = ok (List.length elems, rows)).
  { unfold projection. rewrite Hd. simpl. rewrite Hrows. reflexivity. }
  exists rows. repeat split.
  - rewrite try_projection, Hp. reflexivity.
  - rewrite convert_projection, Hp. destruct this; reflexivity.
  - rewrite convert_projection, Hp. destruct this; reflexivity.
  - intros i props colDef Hs Hin Hnone.
    destruct (map_from_nth _ _ _ _ Hrows Hs) as [row [Hr Hf]].
    exists row. split; [assumption|].
    simpl in Hf. apply mapRow_inv, rowOf_inv in Hf.
    destruct Hf as [url [_ ->]].
    assert (Hl : lookup (VObject props) (jsonKey colDef) = VUndefined).
    { simpl. rewrite Hnone. reflexivity. }
    simpl in Hin.
    destruct Hin as [<-|[<-|[<-|[<-|[]]]]]; simpl in Hl |- *; exact Hl.
Qed.

(** *** Columns *)

Lemma spread_get_prop k attrs :
  NoDup (map fst attrs) ->
  forall target,
    get_prop k
      (fold_left (fun acc kv => set_prop (fst kv) (snd kv) acc) attrs target) =
      match get_prop k attrs with
      | Some v => Some v
      | None => get_prop k target
      end.
Proof.
  induction attrs as [|[k1 v1] attrs IH]; simpl; intros Hnd target;
    [reflexivity|].
  inversion Hnd as [|? ? Hnotin Hnd']; subst.
  rewrite (IH Hnd').
  destruct (str_eq_dec k k1) as [->|Hne].
  - assert (Hnone : get_prop k1 attrs = None).
    { clear -Hnotin. induction attrs as [|[k2 v2] attrs IH]; simpl;
        [reflexivity|].
      destruct (str_eq_dec k1 k2) as [->|_].
      - exfalso. apply Hnotin. left. reflexivity.
      - apply IH. intros H. apply Hnotin. right. assumption. }
    rewrite Hnone. apply get_prop_set_prop_same.
  - destruct (get_prop k attrs); [reflexivity|].
    apply get_prop_set_prop_other. assumption.
Qed.

Lemma mapColumn_describes colDef :
  well_formed colDef -> describes colDef (mapColumn colDef).
Proof.
  destruct colDef as [key lbl ty url lab attrs].
  unfold well_formed, describes, mapColumn, defaultHint, entryHint,
    linkHints, field, is_link.
  cbn [jsonKey label type urlFieldName labelFieldName typeAttributes].
  intros Hwf.
  destruct (str_eq_dec key (js "caseIssueName")) as [Hk|Hk];
    destruct attrs as [attrs|]; simpl;
    repeat split; try reflexivity; try discriminate;
    try (intros [? ?]; discriminate);
    intros k; try reflexivity;
    try (rewrite (@spread_get_prop k attrs Hwf); simpl; destruct (get_prop k attrs);
         reflexivity).
Qed.

Lemma columnMapping_well_formed : Forall well_formed columnMapping.
Proof.
  repeat constructor; simpl; try discriminate; intros H;
    repeat (destruct H as [H|H]; [discriminate H|]); exact H.
Qed.

Lemma columns_describe :
  Forall2 describes (filter not_hidden columnMapping) columns.
Proof.
  unfold columns.
  assert (H : Forall well_formed (filter not_hidden columnMapping)).
  { apply Forall_forall. intros c Hc. apply filter_In in Hc.
    destruct Hc as [Hc _].
    exact (proj1 (Forall_forall _ _) columnMapping_well_formed c Hc). }
  induction H as [|c l Hc Hl IH]; simpl; constructor; auto.
  apply mapColumn_describes. assumption.
Qed.

Lemma convert_columns payload this cols :
  autoColumns (convertJsonToTable payload this) = VArray cols ->
  cols = columns.
Proof.
  rewrite convert_projection.
  destruct (projection payload) as [e|[n rows]]; destruct this; simpl;
    intros H; inversion H; reflexivity.
Qed.

(** C8: after a successful conversion no column descriptor comes from a
    hidden mapping entry (the columns are as many as the visible entries,
    none has the type hidden, none shows the key of a hidden entry), yet
    every row holds, under the key of each hidden entry, the value its
    record has there. *)
Theorem C8_hidden_entries payload elems rows this :
  decode payload = ok (VArray elems) ->
  autoTableData (convertJsonToTable payload this) = VArray rows ->
  exists cols,
    autoColumns (convertJsonToTable payload this) = VArray cols /\
    List.length cols = List.length (filter not_hidden columnMapping) /\
    (forall col, In col cols -> field "type" col <> VString (js "hidden")) /\
    (forall colDef col,
       In colDef columnMapping -> type colDef = js "hidden" ->
       In col cols -> field "fieldName" col <> VString (jsonKey colDef)) /\
    (forall colDef i source row,
       In colDef columnMapping -> type colDef = js "hidden" ->
       nth_error elems i = Some source ->
       nth_error rows i = Some row ->
       lookup row (jsonKey colDef) = lookup source (jsonKey colDef)).
Proof.
  intros Hd Hrows.
  destruct (projected _ _ Hd Hrows) as [Hmap Hshown].
  exists columns. refine (conj _ (conj _ (conj _ (conj _ _)))).
  - rewrite Hshown. destruct this; reflexivity.
  - reflexivity.
  - intros col Hin. simpl in Hin.
    destruct Hin as [<-|[<-|[<-|[]]]]; discriminate.
  - intros colDef col HinD Hty Hin. simpl in HinD, Hin.
    destruct HinD as [<-|[<-|[<-|[<-|[]]]]]; try discriminate Hty.
    destruct Hin as [<-|[<-|[<-|[]]]]; discriminate.
  - intros colDef i source row HinD Hty Hs Hr.
    pose proof (@projected_row _ _ _ _ _ _ _ Hd Hrows Hs Hr) as Hrow.
    apply rowOf_inv in Hrow. destruct Hrow as [url [_ ->]].
    simpl in HinD.
    destruct HinD as [<-|[<-|[<-|[<-|[]]]]]; try discriminate Hty.
    reflexivity.
Qed.

Lemma shown_entries :
  selects is_shown columnMapping (filter not_hidden columnMapping).
Proof.
  unfold columnMapping, is_shown. simpl.
  apply selects_keep; [simpl; discriminate|].
  apply selects_keep; [simpl; discriminate|].
  apply selects_keep; [simpl; discriminate|].
  apply selects_drop; [simpl; intros H; apply H; reflexivity|].
  apply selects_nil.
Qed.

(** C9: after a successful conversion the columns describe exactly the
    mapping entries whose type is not hidden, one each and in mapping
    order: three columns, on the fields Case_Issue_Link_URL, citationForm
    and factor.  The descriptor of the link entry names the derived
    target field, labels its cells by the derived label field and carries
    the hints (new tab, tooltip); and in the descriptor of any entry, the
    entry's own typeAttributes win over those hints key by key. *)
Theorem C9_column_descriptors payload this cols :
  autoColumns (convertJsonToTable payload this) = VArray cols ->
  (exists visible,
     selects is_shown columnMapping visible /\
     Forall2 describes visible cols /\
     forall i colDef col,
       nth_error visible i = Some colDef ->
       nth_error cols i = Some col ->
       is_link colDef = true ->
       field "fieldName" col = VString (js "Case_Issue_Link_URL") /\
       field "label" (field "typeAttributes" col) =
         VObject [(js "fieldName", VString (js "Case_Issue_Label"))] /\
       field "target" (field "typeAttributes" col) = VString (js "_blank") /\
       field "tooltip" (field "typeAttributes" col) =
         VString (js "Open Case Issue Record")) /\
  map (field "label") cols =
    [ VString (js "Case Issue"); VString (js "Citation Form");
      VString (js "Factor") ] /\
  map (field "fieldName") cols =
    [ VString (js "Case_Issue_Link_URL"); VString (js "citationForm");
      VString (js "factor") ] /\
  map (field "type") cols =
    [ VString (js "url"); VString (js "text"); VString (js "number") ] /\
  (forall colDef, well_formed colDef ->
     describes colDef (mapColumn colDef) /\
     forall k v,
       entryHint colDef k = Some v ->
       lookup (field "typeAttributes" (mapColumn colDef)) k = v).
Proof.
  intros Hcols. apply convert_columns in Hcols. subst cols.
  refine (conj _ (conj _ (conj _ (conj _ _)))); try reflexivity.
  - exists (filter not_hidden columnMapping).
    split; [exact shown_entries|]. split; [exact columns_describe|].
    intros i colDef col HD HC Hlink.
    destruct i as [|[|[|i]]]; simpl in HD, HC;
      try (destruct i; discriminate HD);
      inversion HD; subst colDef; try discriminate Hlink.
    inversion HC; subst col. repeat split.
  - intros colDef Hwf.
    pose proof (mapColumn_describes colDef Hwf) as Hdesc.
    split; [assumption|].
    intros k v Hk. destruct Hdesc as (_ & _ & _ & _ & _ & Hattrs).
    rewrite Hattrs, Hk. reflexivity.
Qed.

(** C10: the title, the columns and the rows that a conversion leaves
    depend on the JSON text alone, not on the state of the component it
    runs on. *)
Theorem C10_deterministic jsonString this1 this2 :
  dynamicTitle (convertJsonToTable jsonString this1) =
    dynamicTitle (convertJsonToTable jsonString this2) /\
  autoColumns (convertJsonToTable jsonString this1) =
    autoColumns (convertJsonToTable jsonString this2) /\
  autoTableData (convertJsonToTable jsonString this1) =
    autoTableData (convertJsonToTable jsonString this2).
Proof.
  rewrite !convert_projection.
  destruct (projection jsonString) as [e|[n rows]];
    destruct this1, this2; simpl; auto.
Qed.

(** *** The wire handler *)

Lemma wired_recordId p this :
  recordId (wiredPayeeRecord p this) = recordId this.
Proof.
  unfold wiredPayeeRecord, processAutoJson.
  destruct this as [[[|c id]|] t cs j er l ti]; simpl; try reflexivity.
  destruct p as [[e|] [[[|c' s]|]|]]; simpl; try reflexivity;
    rewrite convert_projection;
    destruct (projection (c' :: s)) as [e'|[n rows]]; reflexivity.
Qed.

(** The data branch on a non-empty JSON text: the error is cleared, the
    text kept and converted, the loading flag lowered. *)
Lemma wired_data p s c id this :
  recordId this = Some (c :: id) ->
  data p = Some (Some s) ->
  s <> [] ->
  wiredPayeeRecord p this =
    set_isLoading false
      (convertJsonToTable s
         (set_autoJsonData (Some s) (set_autoError VNull this))).
Proof.
  intros Hid Hd Hs. unfold wiredPayeeRecord, processAutoJson.
  rewrite Hid, Hd. destruct s as [|c' s]; [congruence|].
  destruct this; reflexivity.
Qed.

(** X1: no record id yet: whatever the adapter delivers, the handler only
    raises the waiting message and the loading flag; title, rows, columns
    and JSON text stay, and the final-error indicator is off. *)
Theorem wired_without_record_id p this :
  recordId this = None \/ recordId this = Some [] ->
  let after := wiredPayeeRecord p this in
  autoError after = VString (js "Waiting for record ID...") /\
  isLoading after = true /\
  shouldShowFinalError after = VBool false /\
  dynamicTitle after = dynamicTitle this /\
  autoTableData after = autoTableData this /\
  autoColumns after = autoColumns this /\
  autoJsonData after = autoJsonData this.
Proof.
  intros Hid after. subst after. unfold wiredPayeeRecord.
  destruct this as [rid t cs j er l ti]. simpl in Hid.
  destruct Hid as [-> | ->]; vm_compute; repeat split.
Qed.

(** X2: a fetch error on a bound component: the recorded message is the body
    message when that is truthy, else the error message when that is
    truthy, else the generic text; it is never falsy.  The JSON text is
    dropped, the title reset, the loading flag lowered. *)
Theorem wired_error_message e c id this :
  recordId this = Some (c :: id) ->
  let after := wiredPayeeRecord (mkProvisioned (Some e) None) this in
  ToBoolean (autoError after) = true /\
  (forall m, body_message e = Some m -> ToBoolean m = true ->
     autoError after = m) /\
  ((forall m, body_message e = Some m -> ToBoolean m = false) ->
   (ToBoolean (error_message e) = true ->
      autoError after = error_message e) /\
   (ToBoolean (error_message e) = false ->
      autoError after =
        VString (js "An unknown error occurred while fetching record data."))) /\
  autoJsonData after = None /\
  dynamicTitle after = js "Payee Association (0)" /\
  isLoading after = false.
Proof.
  intros Hid after. subst after. unfold wiredPayeeRecord. rewrite Hid.
  destruct this as [rid t cs j er l ti]. destruct e as [bm em].
  cbn [error data body_message error_message set_autoError set_autoJsonData
       set_dynamicTitle set_isLoading autoError autoJsonData dynamicTitle
       isLoading recordId autoTableData autoColumns].
  unfold or_else.
  refine (conj _ (conj _ (conj _ (conj _ (conj _ _))))); try reflexivity.
  - destruct bm as [m|]; [destruct (ToBoolean m) eqn:Hm; [exact Hm|]|];
      destruct (ToBoolean em) eqn:Hem; auto.
  - intros m Hm Ht. inversion Hm; subst. rewrite Ht. reflexivity.
  - intros Hb. assert (Hskip :
      match bm with
      | Some m => if ToBoolean m then m
                  else if ToBoolean em then em else VString unknownError
      | None => if ToBoolean em then em else VString unknownError
      end = if ToBoolean em then em else VString unknownError).
    { destruct bm as [m|]; [rewrite (Hb m eq_refl)|]; reflexivity. }
    rewrite Hskip. split; intros ->; reflexivity.
Qed.

(** X3: a record whose JSON field is null or empty: the error is cleared and
    the loading flag lowered, but nothing is converted, so the title, the
    rows and the columns of the previous delivery stay. *)
Theorem wired_without_json p jsonValue c id this :
  recordId this = Some (c :: id) ->
  data p = Some jsonValue ->
  jsonValue = None \/ jsonValue = Some [] ->
  let after := wiredPayeeRecord p this in
  autoError after = VNull /\
  autoJsonData after = jsonValue /\
  isLoading after = false /\
  dynamicTitle after = dynamicTitle this /\
  autoTableData after = autoTableData this /\
  autoColumns after = autoColumns this.
Proof.
  intros Hid Hd Hj after. subst after.
  unfold wiredPayeeRecord, processAutoJson. rewrite Hid, Hd.
  destruct this as [rid t cs j er l ti].
  destruct Hj as [-> | ->]; simpl; repeat split.
Qed.

Lemma decode_empty : forall v, decode [] <> ok v.
Proof. intros v. vm_compute. discriminate. Qed.

(** X4: a delivered JSON text that decodes to an array of flat objects, on a
    bound component in any state: the earlier error is cleared, the
    final-error indicator goes off, the loading flag is lowered, and the
    table holds one row per record. *)
Theorem wired_success_clears_error p s elems c id this :
  recordId this = Some (c :: id) ->
  data p = Some (Some s) ->
  decode s = ok (VArray elems) ->
  forallb flat_object elems = true ->
  let after := wiredPayeeRecord p this in
  autoError after = VNull /\
  shouldShowFinalError after = VNull /\
  isLoading after = false /\
  autoJsonData after = Some s /\
  exists rows,
    autoTableData after = VArray rows /\
    List.length rows = List.length elems.
Proof.
  intros Hid Hd Hdec Hflat after. subst after.
  assert (Hs : s <> []).
  { intros ->. exact (decode_empty Hdec). }
  rewrite (@wired_data p s c id this Hid Hd Hs).
  destruct (map_from_total mapRow elems) with (index := 0) as [rows Hrows].
  { intros x index Hx. apply mapRow_flat.
    rewrite forallb_forall in Hflat. auto. }
  assert (Hp : projection s = ok (List.length elems, rows)).
  { unfold projection. rewrite Hdec. simpl. rewrite Hrows. reflexivity. }
  rewrite convert_projection, Hp. destruct this; simpl.
  refine (conj _ (conj _ (conj _ (conj _ _)))); try reflexivity.
  exists rows. split; [reflexivity|].
  eapply map_from_length; eassumption.
Qed.

(** X5: a delivered JSON text that decodes to something other than an array:
    the fixed message is recorded, the final-error indicator goes on, the
    loading flag is lowered, and no rows or columns are shown. *)
Theorem wired_shape_failure p s v c id this :
  recordId this = Some (c :: id) ->
  data p = Some (Some s) ->
  decode s = ok v ->
  (forall elems, v <> VArray elems) ->
  let after := wiredPayeeRecord p this in
  autoError after =
    VString (js "JSON structure is invalid: expected an array of objects.") /\
  shouldShowFinalError after = VBool true /\
  isLoading after = false /\
  dynamicTitle after = js "Payee Association (0)" /\
  autoTableData after = VNull /\
  autoColumns after = VNull.
Proof.
  intros Hid Hd Hdec Hv after. subst after.
  assert (Hs : s <> []).
  { intros ->. exact (decode_empty Hdec). }
  rewrite (@wired_data p s c id this Hid Hd Hs).
  assert (Hp : projection s = throw PlainError invalidStructure).
  { unfold projection. rewrite Hdec. simpl.
    destruct v; try reflexivity. exfalso. eapply Hv. reflexivity. }
  rewrite convert_projection, Hp. destruct this; simpl.
  repeat split.
Qed.

(** *** Repeated conversions *)

(** X8: the conversion assigns the title, the rows, the columns and, when it
    fails, the error; it never touches the record id, the stored JSON
    text or the loading flag. *)
Theorem convert_frame jsonString this :
  recordId (convertJsonToTable jsonString this) = recordId this /\
  autoJsonData (convertJsonToTable jsonString this) = autoJsonData this /\
  isLoading (convertJsonToTable jsonString this) = isLoading this.
Proof.
  rewrite convert_projection.
  destruct (projection jsonString) as [e|[n rows]]; destruct this;
    repeat split.
Qed.


(** X10: converting the same text twice is converting it once. *)
Theorem convert_idempotent jsonString this :
  convertJsonToTable jsonString (convertJsonToTable jsonString this) =
    convertJsonToTable jsonString this.
Proof.
  rewrite !convert_projection.
  destruct (projection jsonString) as [e|[n rows]]; destruct this; reflexivity.
Qed.

(** X11: a successful conversion does not reset the error: the message of an
    earlier failure stays until the wire handler clears it. *)
Theorem convert_success_keeps_error jsonString this :
  fst (convertJsonToTable_try jsonString this) = ok tt ->
  autoError (convertJsonToTable jsonString this) = autoError this.
Proof.
  rewrite try_projection, convert_projection.
  destruct (projection jsonString) as [e|[n rows]]; simpl; intros H;
    [discriminate|]. destruct this; reflexivity.
Qed.

(** X12: a failed conversion erases whatever an earlier conversion left: the
    state is the one the failure alone gives. *)
Theorem convert_failure_overrides earlier jsonString this e :
  fst (convertJsonToTable_try jsonString this) = inl e ->
  convertJsonToTable jsonString (convertJsonToTable earlier this) =
    convertJsonToTable jsonString this.
Proof.
  rewrite try_projection, !convert_projection.
  destruct (projection jsonString) as [e'|[n rows]]; simpl; intros H;
    [|discriminate].
  destruct (projection earlier) as [e2|[n2 rows2]]; destruct this; reflexivity.
Qed.

(** *** Repeated deliveries *)

Lemma wired_data_overwrites s this1 this2 :
  recordId this1 = recordId this2 ->
  set_isLoading false
    (convertJsonToTable s
       (set_autoJsonData (Some s) (set_autoError VNull this1))) =
  set_isLoading false
    (convertJsonToTable s
       (set_autoJsonData (Some s) (set_autoError VNull this2))).
Proof.
  intros H. rewrite !convert_projection.
  destruct this1, this2; simpl in H; subst.
  destruct (projection s) as [e|[n rows]]; reflexivity.
Qed.

Lemma wired_data_replaces earlier p c s this :
  data p = Some (Some (c :: s)) ->
  wiredPayeeRecord p (wiredPayeeRecord earlier this) =
    wiredPayeeRecord p this.
Proof.
  intros Hd.
  pose proof (wired_recordId earlier this) as Hr.
  destruct (recordId this) as [[|c0 id]|] eqn:Hid.
  - unfold wiredPayeeRecord at 1 3. rewrite Hr, Hid.
    unfold wiredPayeeRecord. rewrite Hid. destruct this; reflexivity.
  - assert (Hne : c :: s <> []) by discriminate.
    rewrite (@wired_data p (c :: s) c0 id _ Hr Hd Hne).
    rewrite (@wired_data p (c :: s) c0 id _ Hid Hd Hne).
    apply wired_data_overwrites. congruence.
  - unfold wiredPayeeRecord at 1 3. rewrite Hr, Hid.
    unfold wiredPayeeRecord. rewrite Hid. destruct this; reflexivity.
Qed.

(** X6: the delivery of a non-empty JSON text replaces the state wholesale:
    what an earlier delivery left, of any kind, makes no difference. *)
Theorem wired_last_delivery_wins earlier p c s this :
  data p = Some (Some (c :: s)) ->
  wiredPayeeRecord p (wiredPayeeRecord earlier this) =
    wiredPayeeRecord p this.
Proof. apply wired_data_replaces. Qed.

(** X7: delivering the same thing twice is delivering it once, whatever it
    is (data, error, or nothing) and whatever the state. *)
Theorem wired_idempotent p this :
  wiredPayeeRecord p (wiredPayeeRecord p this) = wiredPayeeRecord p this.
Proof.
  destruct p as [err [[[|c s]|]|]].
  - unfold wiredPayeeRecord, processAutoJson.
    destruct this as [[[|c0 id]|] t cs j er l ti]; reflexivity.
  - apply wired_data_replaces with (c := c) (s := s). reflexivity.
  - unfold wiredPayeeRecord, processAutoJson.
    destruct this as [[[|c0 id]|] t cs j er l ti]; reflexivity.
  - unfold wiredPayeeRecord.
    destruct err as [e|]; destruct this as [[[|c0 id]|] t cs j er l ti];
      reflexivity.
Qed.

(** *** Rows, whatever the records hold *)

Lemma get_prop_absent k props :
  ~ In k (map fst props) -> get_prop k props = None.
Proof.
  induction props as [|[k' v'] props IH]; simpl; intros H; [reflexivity|].
  destruct (str_eq_dec k k') as [->|_]; [exfalso; auto|]. apply IH. auto.
Qed.

(** X13: every row of a converted array has exactly the seven keys of the
    row callback, in its order; a key of the record that no mapping
    entry names is not carried over. *)
Theorem row_keys payload elems rows this row :
  decode payload = ok (VArray elems) ->
  autoTableData (convertJsonToTable payload this) = VArray rows ->
  In row rows ->
  is_object row = true /\
  keys_of row = rowKeys /\
  forall k, ~ In k rowKeys -> lookup row k = VUndefined.
Proof.
  intros Hd Hrows Hin.
  destruct (In_nth_error _ _ Hin) as [i Hi].
  assert (Hlt : i < List.length elems).
  { destruct (projected _ _ Hd Hrows) as [Hmap _].
    rewrite <- (map_from_length _ _ _ Hmap). apply nth_error_Some. congruence. }
  destruct (nth_error elems i) as [source|] eqn:Hs;
    [|apply nth_error_None in Hs; lia].
  pose proof (@projected_row _ _ _ _ _ _ _ Hd Hrows Hs Hi) as Hrow.
  apply rowOf_inv in Hrow. destruct Hrow as [url [_ ->]].
  split; [reflexivity|]. split; [reflexivity|].
  intros k Hk. unfold lookup. rewrite get_prop_absent; [reflexivity|exact Hk].
Qed.

(** X14: in a converted array, the row holds under the key of every mapping
    entry, visible or hidden, the value its record has there, whatever
    that value is (a nested array or object is copied as it is). *)
Theorem row_copies_mapped_fields payload elems rows this i source row colDef :
  decode payload = ok (VArray elems) ->
  autoTableData (convertJsonToTable payload this) = VArray rows ->
  nth_error elems i = Some source ->
  nth_error rows i = Some row ->
  In colDef columnMapping ->
  lookup row (jsonKey colDef) = lookup source (jsonKey colDef).
Proof.
  intros Hd Hrows Hs Hr Hin.
  pose proof (@projected_row _ _ _ _ _ _ _ Hd Hrows Hs Hr) as Hrow.
  apply rowOf_inv in Hrow. destruct Hrow as [url [_ ->]].
  simpl in Hin. destruct Hin as [<-|[<-|[<-|[<-|[]]]]]; reflexivity.
Qed.

(** X15: in a converted array, an element that is not an object (a number,
    a string, a boolean, an array) still gets its row: the id of its
    position, no link target, no label, and undefined under every mapped
    key. *)
Theorem non_object_element_row payload elems rows this i source row :
  decode payload = ok (VArray elems) ->
  autoTableData (convertJsonToTable payload this) = VArray rows ->
  nth_error elems i = Some source ->
  nth_error rows i = Some row ->
  is_object source = false ->
  row =
    VObject
      [ (js "id", VNumber (Number_of_nat (i + 1)));
        (js "Case_Issue_Link_URL", VNull);
        (js "Case_Issue_Label", VNull);
        (js "caseIssueName", VUndefined);
        (js "citationForm", VUndefined);
        (js "factor", VUndefined);
        (js "caseIssueId", VUndefined) ].
Proof.
  intros Hd Hrows Hs Hr Hobj.
  pose proof (@projected_row _ _ _ _ _ _ _ Hd Hrows Hs Hr) as Hrow.
  apply rowOf_inv in Hrow. destruct Hrow as [url [Hurl ->]].
  assert (Hl : forall k, lookup source k = VUndefined).
  { intros k. destruct source; try reflexivity. discriminate Hobj. }
  rewrite !Hl in *. vm_compute in Hurl. inversion Hurl. reflexivity.
Qed.

(** X16: an array of objects whose [caseIssueId] is absent or a scalar is
    converted without error, one row per record, even when other members
    are arrays or objects. *)
Theorem linkable_records_convert payload elems this :
  decode payload = ok (VArray elems) ->
  forallb linkable elems = true ->
  fst (convertJsonToTable_try payload this) = ok tt /\
  exists rows,
    autoTableData (convertJsonToTable payload this) = VArray rows /\
    List.length rows = List.length elems.
Proof.
  intros Hd Hlink.
  destruct (map_from_total mapRow elems) with (index := 0) as [rows Hrows].
  { intros x index Hx. rewrite forallb_forall in Hlink.
    specialize (Hlink x Hx). unfold linkable in Hlink.
    apply andb_prop in Hlink. destruct Hlink as [Hobj Hsc].
    rewrite mapRow_rowOf by (destruct x; discriminate).
    unfold rowOf.
    destruct (linkUrl_scalar _ (is_scalar_or_null _ Hsc)) as [url ->].
    simpl. eauto. }
  assert (Hp : projection payload = ok (List.length elems, rows)).
  { unfold projection. rewrite Hd. simpl. rewrite Hrows. reflexivity. }
  split.
  - rewrite try_projection, Hp. reflexivity.
  - exists rows. split.
    + rewrite convert_projection, Hp. destruct this; reflexivity.
    + eapply map_from_length; eassumption.
Qed.

(** *** A null element *)

Lemma ToString_error : forall v e, ToString v = inl e -> kind e = TypeError.
Proof.
  fix IH 1. intros v e. destruct v as [| |b|n|s|elems|props]; simpl;
    try discriminate.
  - revert e. induction elems as [|x xs IHxs]; intros e; [discriminate|].
    assert (Hx : forall e', match x with
                            | VUndefined | VNull => ok []
                            | _ => ToString x
                            end = inl e' -> kind e' = TypeError).
    { intros e' H. apply (IH x). destruct x; try discriminate H; exact H. }
    destruct xs as [|x' xs'].
    + apply Hx.
    + intros H.
      destruct (match x with
                | VUndefined | VNull => ok []
                | _ => ToString x
                end) as [e1|s1] eqn:E1.
      * simpl in H. inversion H; subst. apply Hx. reflexivity.
      * simpl in H.
        match type of H with
        | rbind ?J _ = _ => destruct J as [e2|r2] eqn:E2
        end; simpl in H; [|discriminate].
        inversion H; subst. apply IHxs. reflexivity.
  - destruct (has_prop (js "toString") props); [|discriminate].
    intros H. inversion H. reflexivity.
Qed.

Lemma mapRow_error row index e :
  mapRow row index = inl e -> kind e = TypeError.
Proof.
  destruct row as [| |b|n|s|elems|props];
    try (intros H; inversion H; reflexivity);
    (rewrite mapRow_rowOf by discriminate); unfold rowOf, linkUrl;
    match goal with
    | |- context [ToBoolean ?v] => destruct (ToBoolean v)
    end; try discriminate;
    match goal with
    | |- context [ToString ?v] =>
        destruct (ToString v) as [e'|s'] eqn:E; simpl; try discriminate;
        intros H; inversion H; subst; exact (ToString_error _ E)
    end.
Qed.

Lemma map_from_null elems :
  In VNull elems ->
  forall index, exists e, map_from mapRow index elems = inl e /\
                          kind e = TypeError.
Proof.
  induction elems as [|x xs IH]; simpl; intros Hin index; [contradiction|].
  destruct (mapRow x index) as [e|y] eqn:E; simpl.
  - exists e. split; [reflexivity|]. exact (mapRow_error _ _ E).
  - destruct Hin as [->|Hin]; [discriminate E|].
    destruct (IH Hin (S index)) as [e [-> Hk]]. simpl. eauto.
Qed.

(** X17: one null element aborts the conversion of the whole array, wherever
    it stands and whatever the other elements are: a TypeError ends the
    traversal, no row is shown, and the title counts zero. *)
Theorem null_element_aborts payload elems this :
  decode payload = ok (VArray elems) ->
  In VNull elems ->
  kind_of (fst (convertJsonToTable_try payload this)) = Some TypeError /\
  autoTableData (convertJsonToTable payload this) = VNull /\
  autoColumns (convertJsonToTable payload this) = VNull /\
  dynamicTitle (convertJsonToTable payload this) = js "Payee Association (0)".
Proof.
  intros Hd Hin.
  destruct (map_from_null _ Hin 0) as [e [He Hk]].
  assert (Hp : projection payload = inl e).
  { unfold projection. rewrite Hd. simpl. rewrite He. reflexivity. }
  rewrite try_projection, convert_projection, Hp. simpl.
  rewrite Hk. destruct this; repeat split.
Qed.

End Component.

(** ** The properties at sample inputs *)

Ltac by_computation := vm_compute; reflexivity.

Lemma C1_wage_claim_witness :
  decode wageClaim = ok (VArray wageClaimRecords) /\
  forallb flat_object wageClaimRecords = true /\
  exists rows,
    autoTableData (convertJsonToTable scientific wageClaim (initial None)) =
      VArray rows /\
    List.length rows = 1 /\
    (forall i row, nth_error rows i = Some row ->
       field "id" row = VNumber (Number_of_nat (i + 1))) /\
    dynamicTitle (convertJsonToTable scientific wageClaim (initial None)) =
      js "Payee Association (1)".
Proof.
  assert (Hd : decode wageClaim = ok (VArray wageClaimRecords))
    by by_computation.
  assert (Hf : forallb flat_object wageClaimRecords = true) by reflexivity.
  assert (Hn : (N.of_nat (List.length wageClaimRecords) < 2 ^ 32)%N)
    by reflexivity.
  destruct (@C1_rows_ids_title scientific wageClaim wageClaimRecords
              (initial None) Hd Hf Hn)
    as [rows (_ & Hrows & Hlen & Hid & Htitle & _)].
  split; [exact Hd|]. split; [exact Hf|].
  exists rows. split; [exact Hrows|]. split; [exact Hlen|].
  split; [exact Hid|]. exact Htitle.
Defined.

Lemma C3_single_object_witness :
  decode (js "{}") = ok (VObject []) /\
  autoError (convertJsonToTable scientific (js "{}") (initial None)) =
    VString (js "JSON structure is invalid: expected an array of objects.") /\
  autoTableData (convertJsonToTable scientific (js "{}") (initial None)) = VNull.
Proof.
  assert (Hd : decode (js "{}") = ok (VObject [])) by by_computation.
  assert (Hv : forall elems, VObject [] <> VArray elems) by discriminate.
  destruct (@C3_non_array_rejected scientific (js "{}") (VObject [])
              (initial None) Hd Hv) as (_ & He & _ & Ht & _).
  split; [exact Hd|]. split; [exact He|exact Ht].
Defined.

(** C3 as stated fails on arrays whose elements are not objects.  The
    array [[1]] is accepted: no exception, title "(1)", one row with
    blank cells.  The array [[null]] is refused, but by the property
    access on [null], whose message is recorded in place of the fixed
    one. *)
Lemma C3_scalar_elements_counterexample :
  decode (js "[1]") = ok (VArray [VNumber (Number_of_nat 1)]) /\
  is_object (VNumber (Number_of_nat 1)) = false /\
  fst (convertJsonToTable_try scientific (js "[1]") (initial None)) = ok tt /\
  autoError (convertJsonToTable scientific (js "[1]") (initial None)) =
    VUndefined /\
  dynamicTitle (convertJsonToTable scientific (js "[1]") (initial None)) =
    js "Payee Association (1)" /\
  autoTableData (convertJsonToTable scientific (js "[1]") (initial None)) =
    VArray [blankRow] /\
  decode (js "[null]") = ok (VArray [VNull]) /\
  autoError (convertJsonToTable scientific (js "[null]") (initial None)) =
    VString (js "Cannot read properties of null (reading 'caseIssueId')") /\
  autoError (convertJsonToTable scientific (js "[null]") (initial None)) <>
    VString invalidStructure.
Proof.
  vm_compute. repeat split; discriminate.
Qed.

Lemma C4_a1B_witness :
  decode a1B = ok (VArray a1BRecords) /\
  autoTableData (convertJsonToTable scientific a1B (initial None)) =
    VArray [a1BRow] /\
  field "Case_Issue_Link_URL" a1BRow = VString (js "/a1B").
Proof.
  assert (Hd : decode a1B = ok (VArray a1BRecords)) by by_computation.
  assert (Hr : autoTableData (convertJsonToTable scientific a1B (initial None))
               = VArray [a1BRow]) by by_computation.
  split; [exact Hd|]. split; [exact Hr|].
  refine (proj1 (proj2
    (@C4_link_url scientific a1B a1BRecords [a1BRow] (initial None) 0
       (VObject [(js "caseIssueId", VString (js "a1B"))]) a1BRow
       Hd Hr eq_refl eq_refl)) (js "a1B") eq_refl _).
  discriminate.
Defined.

Lemma C5_named_witness :
  decode namedOnly = ok (VArray namedOnlyRecords) /\
  autoTableData (convertJsonToTable scientific namedOnly (initial None)) =
    VArray [namedOnlyRow] /\
  field "Case_Issue_Label" namedOnlyRow = VString (js "Wage Claim").
Proof.
  assert (Hd : decode namedOnly = ok (VArray namedOnlyRecords))
    by by_computation.
  assert (Hr : autoTableData
                 (convertJsonToTable scientific namedOnly (initial None))
               = VArray [namedOnlyRow]) by by_computation.
  split; [exact Hd|]. split; [exact Hr|].
  exact (proj1
    (@C5_link_label scientific namedOnly namedOnlyRecords [namedOnlyRow]
       (initial None) 0
       (VObject [(js "caseIssueName", VString (js "Wage Claim"))])
       namedOnlyRow Hd Hr eq_refl eq_refl) eq_refl).
Defined.

(** C5 as stated fails on [[{"caseIssueName":""}]]: the record holds the
    empty string, the row holds null. *)
Lemma C5_empty_name_counterexample :
  decode emptyName = ok (VArray [emptyNameRecord]) /\
  exists row,
    autoTableData (convertJsonToTable scientific emptyName (initial None)) =
      VArray [row] /\
    lookup emptyNameRecord (js "caseIssueName") = VString [] /\
    field "Case_Issue_Label" row = VNull /\
    field "Case_Issue_Label" row <> lookup emptyNameRecord (js "caseIssueName").
Proof.
  split; [by_computation|].
  eexists. split; [by_computation|].
  split; [reflexivity|]. split; [reflexivity|]. discriminate.
Qed.

Lemma C6_encoded_witness :
  JSON.parse a1BEncoded = ok (VString a1B) /\
  JSON.parse a1B = ok (VArray a1BRecords) /\
  dynamicTitle (convertJsonToTable scientific a1BEncoded (initial None)) =
    dynamicTitle (convertJsonToTable scientific a1B (initial None)) /\
  autoColumns (convertJsonToTable scientific a1BEncoded (initial None)) =
    autoColumns (convertJsonToTable scientific a1B (initial None)) /\
  autoTableData (convertJsonToTable scientific a1BEncoded (initial None)) =
    VArray [a1BRow].
Proof.
  assert (H1 : JSON.parse a1BEncoded = ok (VString a1B)) by by_computation.
  assert (H2 : JSON.parse a1B = ok (VArray a1BRecords)) by by_computation.
  destruct (@C6_double_encoding scientific a1BEncoded a1B a1BRecords
              (initial None) H1 H2) as (Ht & Hc & Hr).
  split; [exact H1|]. split; [exact H2|]. split; [exact Ht|].
  split; [exact Hc|]. rewrite Hr. by_computation.
Defined.

Lemma C7_a1B_witness :
  decode a1B = ok (VArray a1BRecords) /\
  exists rows row,
    autoError (convertJsonToTable scientific a1B (initial None)) = VUndefined /\
    autoTableData (convertJsonToTable scientific a1B (initial None)) =
      VArray rows /\
    nth_error rows 0 = Some row /\
    lookup row (js "citationForm") = VUndefined.
Proof.
  assert (Hd : decode a1B = ok (VArray a1BRecords)) by by_computation.
  destruct (@C7_missing_key scientific a1B a1BRecords (initial None)
              Hd eq_refl) as [rows (_ & He & Hr & Hmiss)].
  destruct (Hmiss 0 [(js "caseIssueId", VString (js "a1B"))]
              (mkColDef (js "citationForm") (js "Citation Form") (js "text")
                 None None None)
              eq_refl (or_intror (or_introl eq_refl)) eq_refl)
    as [row [Hrow Hundef]].
  split; [exact Hd|]. exists rows, row. auto.
Defined.

Lemma C8_a1B_witness :
  decode a1B = ok (VArray a1BRecords) /\
  autoTableData (convertJsonToTable scientific a1B (initial None)) =
    VArray [a1BRow] /\
  exists cols,
    autoColumns (convertJsonToTable scientific a1B (initial None)) =
      VArray cols /\
    List.length cols = 3 /\
    (forall col, In col cols -> field "type" col <> VString (js "hidden")) /\
    lookup a1BRow (js "caseIssueId") = VString (js "a1B").
Proof.
  assert (Hd : decode a1B = ok (VArray a1BRecords)) by by_computation.
  assert (Hr : autoTableData (convertJsonToTable scientific a1B (initial None))
               = VArray [a1BRow]) by by_computation.
  destruct (@C8_hidden_entries scientific a1B a1BRecords [a1BRow]
              (initial None) Hd Hr)
    as [cols (Hc & Hlen & Hty & _ & Hcopy)].
  split; [exact Hd|]. split; [exact Hr|].
  exists cols. split; [exact Hc|]. split; [exact Hlen|]. split; [exact Hty|].
  exact (Hcopy
    (mkColDef (js "caseIssueId") (js "Case Issue Id") (js "hidden")
       None None None)
    0 (VObject [(js "caseIssueId", VString (js "a1B"))]) a1BRow
    (or_intror (or_intror (or_intror (or_introl eq_refl))))
    eq_refl eq_refl eq_refl).
Defined.

Lemma C9_a1B_witness :
  autoColumns (convertJsonToTable scientific a1B (initial None)) =
    VArray expectedColumns /\
  (exists visible,
     selects is_shown columnMapping visible /\
     Forall2 describes visible expectedColumns) /\
  map (field "fieldName") expectedColumns =
    [ VString (js "Case_Issue_Link_URL"); VString (js "citationForm");
      VString (js "factor") ].
Proof.
  assert (Hc : autoColumns (convertJsonToTable scientific a1B (initial None))
               = VArray expectedColumns) by by_computation.
  destruct (@C9_column_descriptors scientific a1B (initial None)
              expectedColumns Hc)
    as ((visible & Hsel & Hdesc & _) & _ & Hfields & _).
  split; [exact Hc|]. split; [|exact Hfields].
  exists visible. split; [exact Hsel|exact Hdesc].
Defined.

(** ** Further samples *)

(** The sample of the specification: one record, title "(1)", the row
    with its link target and label and the copied fields. *)
Example wage_claim_projected :
  convertJsonToTable scientific wageClaim (initial None) =
    {| recordId := None;
       autoTableData :=
         VArray
           [ VObject
               [ (js "id", VNumber (Number_of_nat 1));
                 (js "Case_Issue_Link_URL", VString (js "/a1"));
                 (js "Case_Issue_Label", VString (js "Wage Claim"));
                 (js "caseIssueName", VString (js "Wage Claim"));
                 (js "citationForm", VString (js "12-CV"));
                 (js "factor", VNumber (mkNumber false 25 (-2)));
                 (js "caseIssueId", VString (js "a1")) ] ];
       autoColumns := VArray columns;
       autoJsonData := None;
       autoError := VUndefined;
       isLoading := true;
       dynamicTitle := js "Payee Association (1)" |}.
Proof. by_computation. Qed.

(** Malformed JSON: a syntax error, reported and nothing shown. *)
Example not_json_rejected :
  kind_of (JSON.parse (js "{not json")) = Some SyntaxError /\
  dynamicTitle (convertJsonToTable scientific (js "{not json") (initial None)) =
    js "Payee Association (0)" /\
  autoTableData (convertJsonToTable scientific (js "{not json") (initial None)) =
    VNull /\
  autoColumns (convertJsonToTable scientific (js "{not json") (initial None)) =
    VNull.
Proof. vm_compute. auto. Qed.

(** An absent, an empty and a zero [caseIssueId] give no link target. *)
Example falsy_ids_give_no_link :
  let target payload :=
    match autoTableData (convertJsonToTable scientific payload (initial None)) with
    | VArray [row] => Some (field "Case_Issue_Link_URL" row)
    | _ => None
    end in
  target (js "[{}]") = Some VNull /\
  target (js "[{" ++ quoted "caseIssueId" ++ js ":" ++ [Ch.quote; Ch.quote]
            ++ js "}]") = Some VNull /\
  target (js "[{" ++ quoted "caseIssueId" ++ js ":0}]") = Some VNull /\
  target (js "[{" ++ quoted "caseIssueId" ++ js ":0.0e7}]") = Some VNull /\
  target (js "[{" ++ quoted "caseIssueId" ++ js ":7}]") =
    Some (VString (js "/7")) /\
  target (js "[{" ++ quoted "caseIssueId" ++ js ":true}]") =
    Some (VString (js "/true")).
Proof. vm_compute. repeat split. Qed.

(** ** The further properties at sample inputs *)

Lemma unbound_delivery_witness :
  recordId unbound = None /\
  autoError (wiredPayeeRecord scientific fetched unbound) =
    VString (js "Waiting for record ID...") /\
  shouldShowFinalError (wiredPayeeRecord scientific fetched unbound) =
    VBool false /\
  autoTableData (wiredPayeeRecord scientific fetched unbound) = VUndefined.
Proof.
  destruct (@wired_without_record_id scientific fetched unbound
              (or_introl eq_refl)) as (He & _ & Hs & _ & Ht & _).
  split; [reflexivity|]. split; [exact He|]. split; [exact Hs|exact Ht].
Defined.

Lemma silent_failure_witness :
  autoError (wiredPayeeRecord scientific silentFailure bound) =
    VString (js "An unknown error occurred while fetching record data.") /\
  ToBoolean (autoError (wiredPayeeRecord scientific silentFailure bound)) = true.
Proof.
  destruct (@wired_error_message scientific
              (mkWireError (Some (VString [])) VUndefined) 97%N
              (js "0X5e000001AbCd") bound eq_refl)
    as (Ht & _ & Hfallback & _).
  split; [|exact Ht].
  refine (proj2 (Hfallback _) eq_refl).
  intros m Hm. inversion Hm. reflexivity.
Defined.

Lemma stale_table_witness :
  autoError
    (wiredPayeeRecord scientific withoutJson
       (wiredPayeeRecord scientific fetched bound)) = VNull /\
  dynamicTitle
    (wiredPayeeRecord scientific withoutJson
       (wiredPayeeRecord scientific fetched bound)) =
    js "Payee Association (1)" /\
  autoTableData
    (wiredPayeeRecord scientific withoutJson
       (wiredPayeeRecord scientific fetched bound)) =
    autoTableData (wiredPayeeRecord scientific fetched bound).
Proof.
  destruct (@wired_without_json scientific withoutJson None 97%N
              (js "0X5e000001AbCd")
              (wiredPayeeRecord scientific fetched bound)
              eq_refl eq_refl (or_introl eq_refl))
    as (He & _ & _ & Hti & Ht & _).
  split; [exact He|]. split; [|exact Ht].
  rewrite Hti. by_computation.
Defined.

Lemma error_cleared_witness :
  autoError (wiredPayeeRecord scientific notAnArray bound) =
    VString (js "JSON structure is invalid: expected an array of objects.") /\
  autoError
    (wiredPayeeRecord scientific fetched
       (wiredPayeeRecord scientific notAnArray bound)) = VNull /\
  shouldShowFinalError
    (wiredPayeeRecord scientific fetched
       (wiredPayeeRecord scientific notAnArray bound)) = VNull.
Proof.
  assert (Hd : decode wageClaim = ok (VArray wageClaimRecords))
    by by_computation.
  destruct (@wired_success_clears_error scientific fetched wageClaim
              wageClaimRecords 97%N (js "0X5e000001AbCd")
              (wiredPayeeRecord scientific notAnArray bound)
              eq_refl eq_refl Hd eq_refl) as (He & Hs & _).
  split; [by_computation|]. split; [exact He|exact Hs].
Defined.

Lemma not_an_array_delivery_witness :
  shouldShowFinalError (wiredPayeeRecord scientific notAnArray bound) =
    VBool true /\
  isLoading (wiredPayeeRecord scientific notAnArray bound) = false /\
  autoTableData (wiredPayeeRecord scientific notAnArray bound) = VNull.
Proof.
  assert (Hd : decode (js "{}") = ok (VObject [])) by by_computation.
  assert (Hv : forall elems, VObject [] <> VArray elems) by discriminate.
  destruct (@wired_shape_failure scientific notAnArray (js "{}") (VObject [])
              97%N (js "0X5e000001AbCd") bound eq_refl eq_refl Hd Hv)
    as (_ & Hs & Hl & _ & Ht & _).
  split; [exact Hs|]. split; [exact Hl|exact Ht].
Defined.

Lemma sticky_error_witness :
  autoError
    (convertJsonToTable scientific a1B
       (convertJsonToTable scientific (js "{}") unbound)) =
    VString (js "JSON structure is invalid: expected an array of objects.").
Proof.
  rewrite (@convert_success_keeps_error scientific a1B
             (convertJsonToTable scientific (js "{}") unbound));
    by_computation.
Defined.

Lemma failure_overrides_witness :
  convertJsonToTable scientific (js "{}")
    (convertJsonToTable scientific wageClaim unbound) =
  convertJsonToTable scientific (js "{}") unbound.
Proof.
  apply (@convert_failure_overrides scientific wageClaim (js "{}") unbound
           (mkThrown PlainError invalidStructure)).
  by_computation.
Defined.

Lemma last_delivery_witness :
  wiredPayeeRecord scientific fetched
    (wiredPayeeRecord scientific fetchFailure bound) =
  wiredPayeeRecord scientific fetched bound.
Proof.
  destruct wageClaim as [|c s] eqn:E; [discriminate E|].
  apply (@wired_last_delivery_wins scientific fetchFailure fetched c s bound).
  unfold fetched. rewrite E. reflexivity.
Defined.

Lemma nested_row_keys_witness :
  decode nested = ok (VArray [nestedRecord]) /\
  autoTableData (convertJsonToTable scientific nested unbound) =
    VArray [nestedRow] /\
  keys_of nestedRow = rowKeys /\
  lookup nestedRecord (js "note") = VString (js "x") /\
  lookup nestedRow (js "note") = VUndefined.
Proof.
  assert (Hd : decode nested = ok (VArray [nestedRecord])) by by_computation.
  assert (Hr : autoTableData (convertJsonToTable scientific nested unbound)
               = VArray [nestedRow]) by by_computation.
  destruct (@row_keys scientific nested [nestedRecord] [nestedRow] unbound
              nestedRow Hd Hr (or_introl eq_refl)) as (_ & Hk & Hout).
  split; [exact Hd|]. split; [exact Hr|]. split; [exact Hk|].
  split; [reflexivity|]. apply Hout.
  simpl. intros H.
  repeat (destruct H as [H|H]; [discriminate H|]). exact H.
Defined.

Lemma nested_copy_witness :
  lookup nestedRow (js "factor") =
    VObject [ (js "min", VNumber (Number_of_nat 1)) ].
Proof.
  assert (Hd : decode nested = ok (VArray [nestedRecord])) by by_computation.
  assert (Hr : autoTableData (convertJsonToTable scientific nested unbound)
               = VArray [nestedRow]) by by_computation.
  exact (@row_copies_mapped_fields scientific nested [nestedRecord]
           [nestedRow] unbound 0 nestedRecord nestedRow
           (mkColDef (js "factor") (js "Factor") (js "number") None None
              (Some [ (js "minimumIntegerDigits", VNumber (Number_of_nat 1));
                      (js "maximumFractionDigits", VNumber (Number_of_nat 5)) ]))
           Hd Hr eq_refl eq_refl
           (or_intror (or_intror (or_introl eq_refl)))).
Defined.

Lemma scalar_elements_witness :
  decode scalars = ok (VArray scalarsRecords) /\
  exists row1 row2,
    autoTableData (convertJsonToTable scientific scalars unbound) =
      VArray [row1; row2] /\
    field "id" row2 = VNumber (Number_of_nat 2) /\
    field "Case_Issue_Link_URL" row2 = VNull /\
    field "factor" row2 = VUndefined.
Proof.
  assert (Hd : decode scalars = ok (VArray scalarsRecords)) by by_computation.
  split; [exact Hd|].
  destruct (autoTableData (convertJsonToTable scientific scalars unbound))
    as [| | | | |[|row1 [|row2 [|row3 rest]]]|] eqn:Hr;
    try (vm_compute in Hr; discriminate Hr).
  exists row1, row2. split; [reflexivity|].
  rewrite (@non_object_element_row scientific scalars scalarsRecords
             [row1; row2] unbound 1 (VArray [VNumber (Number_of_nat 2)]) row2
             Hd Hr eq_refl eq_refl eq_refl).
  repeat split.
Defined.

Lemma nested_converts_witness :
  forallb flat_object [nestedRecord] = false /\
  fst (convertJsonToTable_try scientific nested unbound) = ok tt /\
  exists rows,
    autoTableData (convertJsonToTable scientific nested unbound) = VArray rows /\
    List.length rows = 1.
Proof.
  assert (Hd : decode nested = ok (VArray [nestedRecord])) by by_computation.
  destruct (@linkable_records_convert scientific nested [nestedRecord] unbound
              Hd eq_refl) as (Hok & rows & Hr & Hl).
  split; [reflexivity|]. split; [exact Hok|]. exists rows. auto.
Defined.

Lemma null_element_witness :
  decode withNull = ok (VArray [VObject []; VNull]) /\
  kind_of (fst (convertJsonToTable_try scientific withNull unbound)) =
    Some TypeError /\
  autoTableData (convertJsonToTable scientific withNull unbound) = VNull /\
  dynamicTitle (convertJsonToTable scientific withNull unbound) =
    js "Payee Association (0)".
Proof.
  assert (Hd : decode withNull = ok (VArray [VObject []; VNull]))
    by by_computation.
  destruct (@null_element_aborts scientific withNull [VObject []; VNull]
              unbound Hd (or_intror (or_introl eq_refl)))
    as (Hk & Ht & _ & Hti).
  split; [exact Hd|]. split; [exact Hk|]. split; [exact Ht|exact Hti].
Defined.
